(** * Token-caching custom authorizer ([func.py]): model and verification

    The development follows the layout of [func.py]:
    - [Sha256]: the digest behind [hashlib.sha256(...).hexdigest()];
    - [Py]: the Python values, exceptions and the state-and-error monad the
      functions of the module run in, with the libraries and the clock they
      call gathered in a [runtime];
    - [Func]: the functions of [func.py], one definition per [def];
    - [Unicode]: [str.encode("utf-8")] on code points, and [get_cache_key]
      on them;
    - [Trace]: the paths through the [try] block of [handler];
    - [Invariant]: what the globals hold over a sequence of invocations;
    - [Spec]: the reading of the written specification where it is compared
      with the code;
    - [Fixture]: a scripted runtime and sample payloads;
    - the theorems, one group per function, then further properties of
      the code (configuration, extraction, cache, exchange, invariants).

    Timestamps are exact rationals: [time.time()] and the [exp] claim are
    numbers of seconds since the epoch, and [+] and [<] on them are exact. *)

From Stdlib Require Import ZArith List Ascii String QArith Qcanon Lia Lqa.
From stdpp Require Import base gmap strings list fin_maps pretty.

(* ===================================================================== *)
(** ** SHA-256 (FIPS 180-4), as computed by [hashlib.sha256]              *)
(* ===================================================================== *)

Module Sha256.
Local Open Scope Z_scope.

(** 32-bit words are integers kept in [0, 2^32) by an explicit wrap. *)
Definition wrap32 (x : Z) : Z := Z.land x 0xffffffff.

Definition add32 (x y : Z) : Z := wrap32 (x + y).

Definition rotr (n x : Z) : Z :=
  Z.lor (Z.shiftr x n) (wrap32 (Z.shiftl x (32 - n))).

Definition not32 (x : Z) : Z := Z.lxor x 0xffffffff.

Definition Ch (x y z : Z) : Z := Z.lxor (Z.land x y) (Z.land (not32 x) z).

Definition Maj (x y z : Z) : Z :=
  Z.lxor (Z.lxor (Z.land x y) (Z.land x z)) (Z.land y z).

Definition bsig0 (x : Z) : Z := Z.lxor (Z.lxor (rotr 2 x) (rotr 13 x)) (rotr 22 x).
Definition bsig1 (x : Z) : Z := Z.lxor (Z.lxor (rotr 6 x) (rotr 11 x)) (rotr 25 x).
Definition ssig0 (x : Z) : Z := Z.lxor (Z.lxor (rotr 7 x) (rotr 18 x)) (Z.shiftr x 3).
Definition ssig1 (x : Z) : Z := Z.lxor (Z.lxor (rotr 17 x) (rotr 19 x)) (Z.shiftr x 10).

(** The first 64 primes, by trial division. *)
Fixpoint sieve (fuel : nat) (n : Z) (found : list Z) : list Z :=
  match fuel with
  | O => found
  | S fuel' =>
      if forallb (fun p => negb (n mod p =? 0)) found
      then sieve fuel' (n + 1) (found ++ [n])
      else sieve fuel' (n + 1) found
  end.

Definition primes : list Z := firstn 64 (sieve 310 2 []).

(** [root k n bits acc]: the largest [r] below [acc + 2^bits], built bit by
    bit from the top, with [r^k <= n]. *)
Fixpoint root (k n : Z) (bits : nat) (acc : Z) : Z :=
  match bits with
  | O => acc
  | S b =>
      let cand := acc + 2 ^ Z.of_nat b in
      if cand ^ k <=? n then root k n b cand else root k n b acc
  end.

(** The first 32 bits of the fractional part of the [k]-th root of [p]. *)
Definition frac_root (k p : Z) : Z := wrap32 (root k (p * 2 ^ (32 * k)) 36 0).

(** Round constants: from the cube roots of the first 64 primes. *)
Definition K : list Z := map (frac_root 3) primes.

(** The eight working words of the hash. *)
Record hash_state := HashState {
  ha : Z; hb : Z; hc : Z; hd : Z; he : Z; hf : Z; hg : Z; hh : Z
}.

(** Initial hash value: from the square roots of the first 8 primes. *)
Definition H0 : hash_state :=
  HashState (frac_root 2 2) (frac_root 2 3) (frac_root 2 5) (frac_root 2 7)
            (frac_root 2 11) (frac_root 2 13) (frac_root 2 17) (frac_root 2 19).

(** Big-endian 64-bit length field. *)
Definition be64 (n : Z) : list Z :=
  map (fun i => Z.land (Z.shiftr n (8 * i)) 0xff) [7; 6; 5; 4; 3; 2; 1; 0].

(** Padding: a 1 bit, zeros up to 56 mod 64, then the bit length. *)
Definition pad (msg : list Z) : list Z :=
  let len := Z.of_nat (length msg) in
  msg ++ [0x80] ++ repeat 0 (Z.to_nat ((55 - len) mod 64)) ++ be64 (8 * len).

Fixpoint words (bs : list Z) : list Z :=
  match bs with
  | b0 :: b1 :: b2 :: b3 :: rest =>
      Z.lor (Z.shiftl b0 24) (Z.lor (Z.shiftl b1 16) (Z.lor (Z.shiftl b2 8) b3))
        :: words rest
  | _ => []
  end.

(** Message schedule; [rev_w] holds the words computed so far, latest first. *)
Fixpoint schedule (n : nat) (rev_w : list Z) : list Z :=
  match n with
  | O => rev rev_w
  | S n' =>
      let at_ i := nth i rev_w 0 in
      let w := add32 (add32 (ssig1 (at_ 1%nat)) (at_ 6%nat))
                     (add32 (ssig0 (at_ 14%nat)) (at_ 15%nat)) in
      schedule n' (w :: rev_w)
  end.

Definition round (s : hash_state) (kw : Z * Z) : hash_state :=
  let '(k, w) := kw in
  let t1 := add32 (add32 (add32 (hh s) (bsig1 (he s)))
                         (add32 (Ch (he s) (hf s) (hg s)) k)) w in
  let t2 := add32 (bsig0 (ha s)) (Maj (ha s) (hb s) (hc s)) in
  HashState (add32 t1 t2) (ha s) (hb s) (hc s)
            (add32 (hd s) t1) (he s) (hf s) (hg s).

Definition compress (s : hash_state) (block : list Z) : hash_state :=
  let w := schedule 48 (rev block) in
  let r := fold_left round (combine K w) s in
  HashState (add32 (ha s) (ha r)) (add32 (hb s) (hb r))
            (add32 (hc s) (hc r)) (add32 (hd s) (hd r))
            (add32 (he s) (he r)) (add32 (hf s) (hf r))
            (add32 (hg s) (hg r)) (add32 (hh s) (hh r)).

Fixpoint process (n : nat) (ws : list Z) (s : hash_state) : hash_state :=
  match n with
  | O => s
  | S n' => process n' (skipn 16 ws) (compress s (firstn 16 ws))
  end.

Definition sha256 (msg : list Z) : hash_state :=
  let ws := words (pad msg) in
  process (length ws / 16) ws H0.

(** [hexdigest]: each word printed as eight hexadecimal digits. *)
Definition hex_alphabet : list ascii :=
  list_ascii_of_string "0123456789abcdef".

Definition hex_digit (n : Z) : ascii := nth (Z.to_nat n) hex_alphabet "?"%char.

Definition hex_word (w : Z) : list ascii :=
  map (fun i => hex_digit (Z.land (Z.shiftr w (4 * i)) 15)) [7; 6; 5; 4; 3; 2; 1; 0].

Definition hexdigest (s : hash_state) : string :=
  string_of_list_ascii
    (hex_word (ha s) ++ hex_word (hb s) ++ hex_word (hc s) ++ hex_word (hd s) ++
     hex_word (he s) ++ hex_word (hf s) ++ hex_word (hg s) ++ hex_word (hh s)).

(** A Python [str] is represented by the bytes of its UTF-8 encoding, so
    [s.encode("utf-8")] reads the bytes off the representation. *)
Definition encode_utf8 (s : string) : list Z :=
  map (fun c => Z.of_N (N_of_ascii c)) (list_ascii_of_string s).

End Sha256.

(* ===================================================================== *)
(** ** Python values, exceptions and the monad of the module               *)
(* ===================================================================== *)

Module Py.

(** The values [json.loads] produces, which are also the values the module
    passes around.  A [dict] keeps its items in insertion order; its keys are
    distinct, and [assoc] reads the item of a key. *)
#[warnings="-register-all"]
Inductive pyval :=
| PyNone
| PyBool (b : bool)
| PyInt (z : Z)
| PyFloat (q : Qc)
| PyStr (s : string)
| PyList (l : list pyval)
| PyDict (d : list (string * pyval)).

Fixpoint assoc (k : string) (d : list (string * pyval)) : option pyval :=
  match d with
  | [] => None
  | (k', v) :: rest => if String.eqb k k' then Some v else assoc k rest
  end.

(** Truth value testing ([if v], [not v], [v or w]). *)
Definition truthy (v : pyval) : bool :=
  match v with
  | PyNone => false
  | PyBool b => b
  | PyInt z => negb (Z.eqb z 0)
  | PyFloat q => negb (bool_decide (q = 0%Qc))
  | PyStr s => negb (String.eqb s "")
  | PyList l => match l with [] => false | _ => true end
  | PyDict d => match d with [] => false | _ => true end
  end.

Definition type_name (v : pyval) : string :=
  match v with
  | PyNone => "NoneType"
  | PyBool _ => "bool"
  | PyInt _ => "int"
  | PyFloat _ => "float"
  | PyStr _ => "str"
  | PyList _ => "list"
  | PyDict _ => "dict"
  end.

(** Exception classes.  [JSONDecodeError], [UnicodeDecodeError] and
    [UnicodeEncodeError] derive from [ValueError]; every class here derives
    from [Exception]. *)
Inductive exc_class :=
| ValueError
| JSONDecodeError
| UnicodeDecodeError
| UnicodeEncodeError
| KeyError
| AttributeError
| TypeError
| RuntimeError
| RequestException
| OtherException.

(** An exception object: its class and [str(ex)]. *)
Record exc := Exc { exc_cls : exc_class; exc_str : string }.

(** [isinstance(ex, ValueError)], the test of [except ValueError]. *)
Definition is_ValueError (e : exc) : bool :=
  match exc_cls e with
  | ValueError | JSONDecodeError | UnicodeDecodeError | UnicodeEncodeError => true
  | _ => false
  end.

(** Outcome of evaluating an expression: a value or a raised exception. *)
Inductive result (A : Type) :=
| Return (a : A)
| Raise (e : exc).
Arguments Return {A} a.
Arguments Raise {A} e.

#[export] Instance result_ret : MRet result := fun A a => Return a.
#[export] Instance result_bind : MBind result := fun A B f r =>
  match r with
  | Return a => f a
  | Raise e => Raise e
  end.

(** Code that reads and writes module globals of type [S] and may raise;
    the globals survive a raise. *)
Definition M (S A : Type) : Type := S -> result A * S.

#[export] Instance M_ret {S} : MRet (M S) := fun A a st => (Return a, st).
#[export] Instance M_bind {S} : MBind (M S) := fun A B f m st =>
  match m st with
  | (Return a, st') => f a st'
  | (Raise e, st') => (Raise e, st')
  end.

Definition lift {S A} (r : result A) : M S A := fun st => (r, st).
Definition modify {S} (f : S -> S) : M S unit := fun st => (Return tt, f st).

Definition attribute_error {A} (v : pyval) (attr : string) : result A :=
  Raise (Exc AttributeError
    ("'" ++ type_name v ++ "' object has no attribute '" ++ attr ++ "'")).

Definition key_error {A} (k : string) : result A :=
  Raise (Exc KeyError ("'" ++ k ++ "'")).

(** [v.get(k, dflt)]: defined on a [dict] only. *)
Definition py_get_default (v : pyval) (k : string) (dflt : pyval) : result pyval :=
  match v with
  | PyDict d => Return (default dflt (assoc k d))
  | _ => attribute_error v "get"
  end.

(** [v.get(k)]. *)
Definition py_get (v : pyval) (k : string) : result pyval :=
  py_get_default v k PyNone.

(** What [requests.post] hands back: status, body text, and the outcome of
    [.json()] on the body. *)
Record http_response := HttpResponse {
  status_code : Z;
  text : string;
  json : result pyval
}.

(** The claims [jwt.decode] returns; [exp] is a NumericDate when present. *)
Record jwt_claims := JwtClaims { claim_exp : option Qc }.

(** The libraries and the environment of one invocation. *)
Record runtime := Runtime {
  (** [json.loads(raw)] *)
  json_loads : string -> result pyval;
  (** [json.dumps(v)] *)
  json_dumps : pyval -> string;
  (** [str(v)] for a value that is not a [str] *)
  py_repr : pyval -> string;
  (** [requests.post(url, headers=..., data=..., timeout=...)] *)
  requests_post :
    string -> list (string * string) -> list (string * string) -> Z ->
    result http_response;
  (** [jwt.decode(token, options={"verify_signature": False})] *)
  jwt_decode : pyval -> result jwt_claims;
  (** [time.time()] as read by [get_cached_token] *)
  time_lookup : Qc;
  (** [time.time()] as read by [cache_token] *)
  time_insert : Qc
}.

(** [str(v)], as used by an f-string. *)
Definition py_str (rt : runtime) (v : pyval) : string :=
  match v with
  | PyStr s => s
  | _ => py_repr rt v
  end.

End Py.

(* ===================================================================== *)
(** ** The functions of [func.py]                                          *)
(* ===================================================================== *)

Module Func.
Import Py.

(** The value stored under [oauth_apps['iam']]. *)
Record iam_app := IamApp { TOKEN_URL : string; SCOPE : string }.

(** The value stored under [auth_cache[cache_key]]: the dict
    [{"token": ..., "exp": ...}], whose [exp] is the expiry claim or the
    fallback, a number either way. *)
Record token_data := TokenData { token : pyval; exp : Qc }.

(** The two module globals. *)
Record state := State {
  auth_cache : gmap string token_data;
  oauth_apps : gmap string iam_app
}.

(** Both globals start as [{}]. *)
Definition initial_state : state := State ∅ ∅.

(** [m[k]]: raises [KeyError] when the key is missing. *)
Definition getitem {A} (m : gmap string A) (k : string) : result A :=
  match m !! k with
  | Some v => Return v
  | None => key_error k
  end.

(** [init_context(context)].  The dict display is evaluated before the
    assignment, so a [KeyError] leaves [oauth_apps] as it was; the [except]
    clause logs and re-raises. *)
Definition init_context (context : gmap string string) : M state unit :=
  fun st =>
    if (size (oauth_apps st) <? 1)%nat then
      match (token_url ← getitem context "TOKEN_URL";
             scope ← getitem context "SCOPE";
             mret (IamApp token_url scope)) with
      | Return app =>
          (Return tt, State (auth_cache st) (<["iam" := app]> (oauth_apps st)))
      | Raise ex => (Raise ex, st)
      end
    else (Return tt, st).

Definition missing_header : exc :=
  Exc ValueError "Missing or invalid Authorization header".

(** [extract_auth_header(body)].  [or] evaluates its right operand only when
    the left one is falsy; [.startswith] exists on [str] only. *)
Definition extract_auth_header (body : pyval) : result string :=
  auth_header ←
    (tok ← py_get body "token";
     if truthy tok then mret tok else
     data ← py_get_default body "data" (PyDict []);
     nested ← py_get data "Authorization";
     if truthy nested then mret nested else
     py_get body "Authorization");
  if negb (truthy auth_header) then Raise missing_header else
  match auth_header with
  | PyStr s => if String.prefix "Basic " s then Return s else Raise missing_header
  | _ => attribute_error auth_header "startswith"
  end.

(** [get_cache_key(auth_header)], on the byte representation of a string
    that has one; [Unicode.get_cache_key] is the same function on code
    points, where [encode] can fail. *)
Definition get_cache_key (auth_header : string) : string :=
  Sha256.hexdigest (Sha256.sha256 (Sha256.encode_utf8 auth_header)).

(** [get_cached_token(cache_key)], with [now] the reading of [time.time()].
    A stored entry is a non-empty dict, so [not token_data] holds for a
    missing key only. *)
Definition get_cached_token (now : Qc) (cache_key : string) : M state pyval :=
  fun st =>
    match auth_cache st !! cache_key with
    | None => (Return PyNone, st)
    | Some token_data =>
        if bool_decide (exp token_data ≠ 0%Qc) && bool_decide (now < exp token_data)%Qc
        then (Return (token token_data), st)
        else (Return PyNone, st)
    end.

(** [decode_jwt_expiry(token)]. *)
Definition decode_jwt_expiry (rt : runtime) (token : pyval) : option Qc :=
  match jwt_decode rt token with
  | Return decoded => claim_exp decoded
  | Raise _ => None
  end.

(** [fetch_new_token(token_url, scope, auth_header)]. *)
Definition fetch_new_token (rt : runtime) (token_url scope auth_header : string)
  : result pyval :=
  let headers := [("Content-Type", "application/x-www-form-urlencoded");
                  ("Authorization", auth_header)] in
  let payload := [("grant_type", "client_credentials"); ("scope", scope)] in
  response_obj ← requests_post rt token_url headers payload 10;
  if negb (status_code response_obj =? 200)%Z then
    Raise (Exc RuntimeError ("Token request failed: " ++ text response_obj))
  else
    token_json ← json response_obj;
    access_token ← py_get token_json "access_token";
    if negb (truthy access_token) then
      Raise (Exc ValueError "No access token returned from OCI IAM")
    else Return access_token.

(** [cache_token(cache_key, token, exp)], with [now] the reading of
    [time.time()]; [exp or ...] takes the fallback for [None] and for [0].
    The sum is exact here; the source adds doubles, which agrees with it up
    to the rounding of the clock's last binary digit. *)
Definition cache_token (now : Qc) (cache_key : string) (token : pyval)
    (exp : option Qc) : M state unit :=
  let expiry :=
    match exp with
    | Some e => if bool_decide (e = 0%Qc) then (now + Qc_of_Z 300)%Qc else e
    | None => (now + Qc_of_Z 300)%Qc
    end in
  modify (fun st =>
    State (<[cache_key := TokenData token expiry]> (auth_cache st)) (oauth_apps st)).

(** What [response.Response] is built from. *)
Record response := Response {
  response_data : string;
  status_code : Z;
  headers : list (string * string)
}.

(** [build_response(ctx, data, status)]. *)
Definition build_response (rt : runtime) (data : pyval) (status : Z) : response :=
  Response (json_dumps rt data) status [("Content-Type", "application/json")].

(** The [token_response] dict of both success paths. *)
Definition token_response (rt : runtime) (scope : string) (tok : pyval) : pyval :=
  PyDict [("active", PyBool true);
          ("scope", PyStr scope);
          ("context", PyDict [("token_response", PyStr ("Bearer " ++ py_str rt tok))])].

(** [data.getvalue()]; [data] defaults to [None]. *)
Definition getvalue (data : option string) : result string :=
  match data with
  | Some raw => Return raw
  | None => attribute_error PyNone "getvalue"
  end.

(** [oauth_apps['iam'][field]]. *)
Definition iam_field (field : iam_app -> string) : M state string :=
  fun st => (app ← getitem (oauth_apps st) "iam"; mret (field app), st).

(** The body of the [try] block of [handler]. *)
Definition handler_try (rt : runtime) (config : gmap string string)
    (data : option string) : M state response :=
  _ ← init_context config;
  raw ← lift (getvalue data);
  body ← lift (json_loads rt raw);
  auth_header ← lift (extract_auth_header body);
  let cache_key := get_cache_key auth_header in
  cached_token ← get_cached_token (time_lookup rt) cache_key;
  scope ← iam_field SCOPE;
  if truthy cached_token then
    mret (build_response rt (token_response rt scope cached_token) 200)
  else
    token_url ← iam_field TOKEN_URL;
    new_token ← lift (fetch_new_token rt token_url scope auth_header);
    let exp := decode_jwt_expiry rt new_token in
    _ ← cache_token (time_insert rt) cache_key new_token exp;
    mret (build_response rt (token_response rt scope new_token) 200).

(** The dict of both [except] clauses. *)
Definition error_body (ex : exc) : pyval := PyDict [("error", PyStr (exc_str ex))].

(** [handler(ctx, data)]: the [try] block and its two [except] clauses,
    [ValueError] first. *)
Definition handler (rt : runtime) (config : gmap string string)
    (data : option string) (st : state) : response * state :=
  match handler_try rt config data st with
  | (Return resp, st') => (resp, st')
  | (Raise ex, st') =>
      if is_ValueError ex
      then (build_response rt (error_body ex) 400, st')
      else (build_response rt (error_body ex) 500, st')
  end.

End Func.

(* ===================================================================== *)
(** ** [str.encode("utf-8")] on the code points of a [str]                 *)
(* ===================================================================== *)

Module Unicode.
Import Py.
Local Open Scope Z_scope.

(** A [str] as the list of its code points, each in [0, 0x10FFFF].  Unlike
    the byte representation used elsewhere, this one also holds the strings
    [json.loads] can produce that have no UTF-8 encoding: those with an
    unpaired surrogate. *)
Definition is_codepoint (c : Z) : bool := (0 <=? c) && (c <=? 0x10FFFF).

Definition is_surrogate (c : Z) : bool := (0xD800 <=? c) && (c <=? 0xDFFF).

(** The one to four bytes of a code point. *)
Definition utf8_bytes (c : Z) : list Z :=
  if c <? 0x80 then [c]
  else if c <? 0x800 then [0xC0 + c / 0x40; 0x80 + c mod 0x40]
  else if c <? 0x10000 then
    [0xE0 + c / 0x1000; 0x80 + (c / 0x40) mod 0x40; 0x80 + c mod 0x40]
  else
    [0xF0 + c / 0x40000; 0x80 + (c / 0x1000) mod 0x40;
     0x80 + (c / 0x40) mod 0x40; 0x80 + c mod 0x40].

(** The number of surrogates a string starts with. *)
Fixpoint surrogate_run (s : list Z) : nat :=
  match s with
  | c :: rest => if is_surrogate c then S (surrogate_run rest) else O
  | [] => O
  end.

Definition hex4 (c : Z) : string :=
  string_of_list_ascii
    (map (fun i => Sha256.hex_digit (Z.land (Z.shiftr c (4 * i)) 15)) [3; 2; 1; 0]).

(** The [UnicodeEncodeError] for the surrogate [c] at [pos], followed by
    [more] further surrogates. *)
Definition encode_error (c : Z) (pos more : nat) : exc :=
  Exc UnicodeEncodeError
    (match more with
     | O => "'utf-8' codec can't encode character '\u" ++ hex4 c ++
            "' in position " ++ pretty pos ++ ": surrogates not allowed"
     | _ => "'utf-8' codec can't encode characters in position " ++ pretty pos ++
            "-" ++ pretty (pos + more)%nat ++ ": surrogates not allowed"
     end)%string.

Fixpoint encode_from (pos : nat) (s : list Z) : result (list Z) :=
  match s with
  | [] => Return []
  | c :: rest =>
      if is_surrogate c then Raise (encode_error c pos (surrogate_run rest))
      else encoded ← encode_from (S pos) rest; Return (utf8_bytes c ++ encoded)
  end.

(** [s.encode("utf-8")]. *)
Definition encode (s : list Z) : result (list Z) := encode_from 0 s.

(** [get_cache_key(auth_header)] on the code points of [auth_header]:
    [hashlib.sha256(auth_header.encode("utf-8")).hexdigest()]. *)
Definition get_cache_key (auth_header : list Z) : result string :=
  encoded ← encode auth_header;
  Return (Sha256.hexdigest (Sha256.sha256 encoded)).

(** The byte representation of an encoded string. *)
Definition string_of_bytes (bs : list Z) : string :=
  string_of_list_ascii (map (fun b => ascii_of_N (Z.to_N b)) bs).

(** The code points of an ASCII literal. *)
Definition codepoints (s : string) : list Z := Sha256.encode_utf8 s.

End Unicode.

(* ===================================================================== *)
(** ** The paths of one invocation                                         *)
(* ===================================================================== *)

Module Trace.
Import Py Func.

(** Where in the [try] block an exception was raised. *)
Inductive stage :=
| ConfigLoading      (* init_context *)
| PayloadDecoding    (* data.getvalue(), json.loads *)
| Extraction         (* extract_auth_header *)
| ConfigLookup       (* oauth_apps['iam'] *)
| Exchange.          (* fetch_new_token *)

(** How the [try] block ended. *)
Inductive path :=
| Failed (at_stage : stage) (ex : exc)
| CacheHit (scope : string) (cached_token : pyval)
| CacheMiss (scope : string) (new_token : pyval).

(** What the [try] block yields on each path. *)
Definition path_result (rt : runtime) (p : path) : result response :=
  match p with
  | Failed _ ex => Raise ex
  | CacheHit scope tok | CacheMiss scope tok =>
      Return (build_response rt (token_response rt scope tok) 200)
  end.

(** The status and body of the [except] clause an exception lands in. *)
Definition error_response (rt : runtime) (ex : exc) : response :=
  build_response rt (error_body ex) (if is_ValueError ex then 400 else 500).

(** What [handler] answers on each path. *)
Definition path_response (rt : runtime) (p : path) : response :=
  match p with
  | Failed _ ex => error_response rt ex
  | CacheHit scope tok | CacheMiss scope tok =>
      build_response rt (token_response rt scope tok) 200
  end.

Section Run.
Variable rt : runtime.
Variable config : gmap string string.
Variable data : option string.
Variable st : state.

(** [run p st'] : the invocation takes path [p] and leaves the globals as
    [st'].  One rule per way through the [try] block. *)
Inductive run : path -> state -> Prop :=
| run_config_error ex st1 :
    init_context config st = (Raise ex, st1) ->
    run (Failed ConfigLoading ex) st1
| run_payload_error ex st1 :
    init_context config st = (Return tt, st1) ->
    getvalue data ≫= json_loads rt = Raise ex ->
    run (Failed PayloadDecoding ex) st1
| run_extraction_error ex st1 body :
    init_context config st = (Return tt, st1) ->
    getvalue data ≫= json_loads rt = Return body ->
    extract_auth_header body = Raise ex ->
    run (Failed Extraction ex) st1
| run_lookup_error ex st1 body auth_header :
    init_context config st = (Return tt, st1) ->
    getvalue data ≫= json_loads rt = Return body ->
    extract_auth_header body = Return auth_header ->
    getitem (oauth_apps st1) "iam" = Raise ex ->
    run (Failed ConfigLookup ex) st1
| run_cache_hit st1 body auth_header app cached_token :
    init_context config st = (Return tt, st1) ->
    getvalue data ≫= json_loads rt = Return body ->
    extract_auth_header body = Return auth_header ->
    getitem (oauth_apps st1) "iam" = Return app ->
    get_cached_token (time_lookup rt) (get_cache_key auth_header) st1 =
      (Return cached_token, st1) ->
    truthy cached_token = true ->
    run (CacheHit (SCOPE app) cached_token) st1
| run_exchange_error ex st1 body auth_header app cached_token :
    init_context config st = (Return tt, st1) ->
    getvalue data ≫= json_loads rt = Return body ->
    extract_auth_header body = Return auth_header ->
    getitem (oauth_apps st1) "iam" = Return app ->
    get_cached_token (time_lookup rt) (get_cache_key auth_header) st1 =
      (Return cached_token, st1) ->
    truthy cached_token = false ->
    fetch_new_token rt (TOKEN_URL app) (SCOPE app) auth_header = Raise ex ->
    run (Failed Exchange ex) st1
| run_cache_miss st1 st2 body auth_header app cached_token new_token :
    init_context config st = (Return tt, st1) ->
    getvalue data ≫= json_loads rt = Return body ->
    extract_auth_header body = Return auth_header ->
    getitem (oauth_apps st1) "iam" = Return app ->
    get_cached_token (time_lookup rt) (get_cache_key auth_header) st1 =
      (Return cached_token, st1) ->
    truthy cached_token = false ->
    fetch_new_token rt (TOKEN_URL app) (SCOPE app) auth_header = Return new_token ->
    cache_token (time_insert rt) (get_cache_key auth_header) new_token
                (decode_jwt_expiry rt new_token) st1 = (Return tt, st2) ->
    run (CacheMiss (SCOPE app) new_token) st2.
End Run.

End Trace.

(* ===================================================================== *)
(** ** What the cache holds                                                *)
(* ===================================================================== *)

Module Invariant.
Import Py Func.

(** Every entry holds a truthy token and an expiry other than 0: the two
    tests [get_cached_token] and [handler] make besides the clock. *)
Definition entry_ok (td : token_data) : Prop :=
  truthy (token td) = true /\ exp td <> 0%Qc.

Definition cache_ok (st : state) : Prop :=
  map_Forall (fun _ td => entry_ok td) (auth_cache st).

(** [oauth_apps] is empty or holds the one key ['iam']. *)
Definition config_ok (st : state) : Prop :=
  oauth_apps st = ∅ \/ exists app, oauth_apps st = {[ "iam" := app ]}.

(** One invocation: its runtime, the configuration mapping and the data the
    host passes. *)
Record invocation := Invocation {
  inv_runtime : runtime;
  inv_config : gmap string string;
  inv_data : option string
}.

(** The globals after a sequence of invocations in one process. *)
Fixpoint serve (calls : list invocation) (st : state) : state :=
  match calls with
  | [] => st
  | c :: rest =>
      serve rest (handler (inv_runtime c) (inv_config c) (inv_data c) st).2
  end.

(** The request [fetch_new_token] sends for a credential. *)
Definition token_request (rt : runtime) (token_url scope auth_header : string)
  : result http_response :=
  requests_post rt token_url
    [("Content-Type", "application/x-www-form-urlencoded");
     ("Authorization", auth_header)]
    [("grant_type", "client_credentials"); ("scope", scope)] 10.

(** The runtime [rt] with another network, token decoder and insert clock. *)
Definition with_exchange (rt : runtime)
    (post : string -> list (string * string) -> list (string * string) -> Z ->
            result http_response)
    (decode : pyval -> result jwt_claims) (t_insert : Qc) : runtime :=
  Runtime (json_loads rt) (json_dumps rt) (py_repr rt) post decode
          (time_lookup rt) t_insert.

End Invariant.

(* ===================================================================== *)
(** ** The written specification, where it is compared with the code      *)
(* ===================================================================== *)

Module Spec.
Import Py.

(** A field of a JSON object; nothing when the value is not an object or
    has no such field. *)
Definition field (v : pyval) (k : string) : option pyval :=
  match v with
  | PyDict d => assoc k d
  | _ => None
  end.

(** The three locations of the credential, in priority order: top-level
    [token], nested [data.Authorization], top-level [Authorization]. *)
Definition locations (payload : pyval) : list (option pyval) :=
  [ field payload "token";
    field payload "data" ≫= (fun data => field data "Authorization");
    field payload "Authorization" ].

(** The first non-empty match among the locations. *)
Definition first_match (payload : pyval) : option pyval :=
  find truthy (omap id (locations payload)).

(** [extractCredential] as section 4.2 words it: the first non-empty match
    when it begins with ["Basic "], a validation error otherwise. *)
Definition extractCredential (payload : pyval) : result string :=
  match first_match payload with
  | Some (PyStr s) =>
      if String.prefix "Basic " s then Return s else Raise Func.missing_header
  | _ => Raise Func.missing_header
  end.

(** The code's validity test on the value its [or] chain selects. *)
Definition check_header (auth_header : pyval) : result string :=
  if negb (truthy auth_header) then Raise Func.missing_header else
  match auth_header with
  | PyStr s => if String.prefix "Basic " s then Return s else Raise Func.missing_header
  | _ => attribute_error auth_header "startswith"
  end.

(** Section 4.2 read as a claim about the code: on every payload,
    [extract_auth_header] does what [extractCredential] says. *)
Definition extraction_claim (payload : pyval) : Prop :=
  Func.extract_auth_header payload = extractCredential payload.

(** Section 4.9 read as a claim about the code: an exception raised by
    extraction or by configuration loading is answered with 400, any other
    one with 500. *)
Definition claimed_status (stg : Trace.stage) : Z :=
  match stg with
  | Trace.ConfigLoading | Trace.Extraction => 400
  | _ => 500
  end.

Definition status_claim (rt : runtime) (config : gmap string string)
    (data : option string) (st : Func.state) : Prop :=
  forall stg ex st1,
    Trace.run rt config data st (Trace.Failed stg ex) st1 ->
    Func.status_code (Func.handler rt config data st).1 = claimed_status stg.

(** The payloads on which the code reaches its validity test: a JSON object
    whose [data], when [token] is empty, is absent or an object, and whose
    first non-empty match is a string. *)
Definition well_typed (payload : pyval) : Prop :=
  (exists d, payload = PyDict d) /\
  (truthy (default PyNone (field payload "token")) = false ->
   field payload "data" = None \/ exists m, field payload "data" = Some (PyDict m)) /\
  (forall v, first_match payload = Some v -> exists s, v = PyStr s).

(** Section 4.3 read as a claim about the code: for the credential string
    [C], [get_cache_key] returns a key, of 64 characters. *)
Definition cache_key_claim (C : list Z) : Prop :=
  exists key, Unicode.get_cache_key C = Return key /\ String.length key = 64%nat.

(** Lowercase hexadecimal digits: [0-9a-f]. *)
Definition is_lower_hex (c : ascii) : bool :=
  let n := N_of_ascii c in
  ((48 <=? n) && (n <=? 57) || (97 <=? n) && (n <=? 102))%N.

End Spec.

(* ===================================================================== *)
(** ** Fixtures: a runtime with scripted libraries, sample payloads        *)
(* ===================================================================== *)

Module Fixture.
Import Py Func.

Local Open Scope string_scope.

Definition dquote : string := String "034"%char "".

Definition quoted (s : string) : string := dquote ++ s ++ dquote.

(** A plain rendering of a value as JSON text (no escapes; a float is shown
    as its fraction), injective on the values the handler serialises. *)
Fixpoint render (v : pyval) : string :=
  match v with
  | PyNone => "null"
  | PyBool b => if b then "true" else "false"
  | PyInt z => pretty z
  | PyFloat q => pretty (Qnum q) ++ "/" ++ pretty (Zpos (Qden q))
  | PyStr s => quoted s
  | PyList l =>
      "[" ++ (fix items (l : list pyval) : string :=
                match l with
                | [] => ""
                | [x] => render x
                | x :: rest => render x ++ ", " ++ items rest
                end) l ++ "]"
  | PyDict d =>
      "{" ++ (fix items (d : list (string * pyval)) : string :=
                match d with
                | [] => ""
                | [(k, x)] => quoted k ++ ": " ++ render x
                | (k, x) :: rest => quoted k ++ ": " ++ render x ++ ", " ++ items rest
                end) d ++ "}"
  end.

(** A runtime whose libraries answer with the given outcomes. *)
Definition scripted (loaded : result pyval) (posted : result http_response)
    (claims : result jwt_claims) (t_lookup t_insert : Qc) : runtime :=
  Runtime (fun _ => loaded) render render
          (fun _ _ _ _ => posted) (fun _ => claims) t_lookup t_insert.

Definition config : gmap string string :=
  {[ "TOKEN_URL" := "https://idcs.example/oauth2/v1/token"; "SCOPE" := "urn:opc:scope" ]}.

Definition credential : string := "Basic QWxhZGRpbjpvcGVuc2VzYW1l".

Definition payload : pyval := PyDict [("token", PyStr credential)].

Definition t0 : Qc := Qc_of_Z 1700000000.

Definition upstream_ok : result http_response :=
  Return (HttpResponse 200 "{...}" (Return (PyDict [("access_token", PyStr "tok1")]))).

(** Status 200, but the JSON body has no [access_token]. *)
Definition upstream_no_token : result http_response :=
  Return (HttpResponse 200 "{}" (Return (PyDict []))).

Definition upstream_401 : result http_response :=
  Return (HttpResponse 401 "unauthorized" (Raise (Exc JSONDecodeError "Expecting value"))).

Definition no_exp : result jwt_claims := Return (JwtClaims None).

(** [data] is a string but no object; [Authorization] is valid. *)
Definition payload_data_string : pyval :=
  PyDict [("data", PyStr "x"); ("Authorization", PyStr "Basic abc")].

(** [token] is a number. *)
Definition payload_token_number : pyval := PyDict [("token", PyInt 123)].

Definition configured : state :=
  State ∅ {[ "iam" := IamApp "https://idcs.example/oauth2/v1/token" "urn:opc:scope" ]}.

(** A configuration mapping without [SCOPE]. *)
Definition config_no_scope : gmap string string :=
  {[ "TOKEN_URL" := "https://idcs.example/oauth2/v1/token" ]}.

(** The globals after scenario A: ["tok1"] cached until [t0 + 300]. *)
Definition cached : state :=
  State {[ "01c185531ab9c6e36dd1793b5bac688be320519636714fa7859e351a931a03a9" :=
             TokenData (PyStr "tok1") (t0 + Qc_of_Z 300)%Qc ]}
        {[ "iam" := IamApp "https://idcs.example/oauth2/v1/token" "urn:opc:scope" ]}.

(** The runtime of scenario A. *)
Definition first_call : runtime :=
  scripted (Return payload) upstream_ok no_exp t0 t0.

(** A runtime whose payload is valid and whose endpoint answers 401. *)
Definition endpoint_down : runtime :=
  scripted (Return payload) upstream_401 no_exp t0 t0.

End Fixture.

(* ===================================================================== *)
(** * Theorems                                                             *)
(* ===================================================================== *)

Import Py Func.

(** ** SHA-256 against the digests [hashlib] prints *)

Example sha256_constants :
  firstn 2 Sha256.K = [0x428a2f98; 0x71374491]%Z /\
  nth 63 Sha256.K 0%Z = 0xc67178f2%Z /\
  Sha256.ha Sha256.H0 = 0x6a09e667%Z /\ Sha256.hh Sha256.H0 = 0x5be0cd19%Z.
Proof. vm_compute. auto. Qed.

Example sha256_empty :
  Sha256.hexdigest (Sha256.sha256 (Sha256.encode_utf8 "")) =
  "e3b0c44298fc1c149afbf4c8996fb92427ae41e4649b934ca495991b7852b855"%string.
Proof. vm_compute. reflexivity. Qed.

Example sha256_abc :
  Sha256.hexdigest (Sha256.sha256 (Sha256.encode_utf8 "abc")) =
  "ba7816bf8f01cfea414140de5dae2223b00361a396177a9cb410ff61f20015ad"%string.
Proof. vm_compute. reflexivity. Qed.

Example sha256_two_blocks :
  Sha256.hexdigest (Sha256.sha256 (Sha256.encode_utf8
    "abcdbcdecdefdefgefghfghighijhijkijkljklmklmnlmnomnopnopq")) =
  "248d6a61d20638b8e5c026930c3e6039a33ce45964ff2167f6ecedd419db06c1"%string.
Proof. vm_compute. reflexivity. Qed.

Example sha256_full_block :
  Sha256.hexdigest (Sha256.sha256 (repeat 97%Z 64)) =
  "ffe054fe7ae0cb6dc65c3af9b61d5209f439851db43d0ba5997337df154668eb"%string.
Proof. vm_compute. reflexivity. Qed.

(** ** [get_cache_key] *)

Lemma land15_range (n : Z) : (0 <= Z.land n 15 < 16)%Z.
Proof.
  change 15%Z with (Z.ones 4). rewrite Z.land_ones by lia.
  apply Z.mod_pos_bound. reflexivity.
Qed.

Lemma hex_digit_lower (n : Z) :
  Spec.is_lower_hex (Sha256.hex_digit (Z.land n 15)) = true.
Proof.
  pose proof (land15_range n) as Hr.
  unfold Sha256.hex_digit.
  assert (Hk : Z.to_nat (Z.land n 15) < 16) by lia.
  revert Hk. generalize (Z.to_nat (Z.land n 15)) as k. intros k Hk.
  do 16 (destruct k as [|k]; [reflexivity|]). lia.
Qed.

Lemma hex_word_length (w : Z) : length (Sha256.hex_word w) = 8.
Proof. reflexivity. Qed.

Lemma hex_word_lower (w : Z) :
  Forall (fun c => Spec.is_lower_hex c = true) (Sha256.hex_word w).
Proof.
  unfold Sha256.hex_word. apply Forall_map, Forall_forall.
  intros i _. apply hex_digit_lower.
Qed.

Lemma length_string_of_list_ascii (l : list ascii) :
  String.length (string_of_list_ascii l) = length l.
Proof. induction l as [|c l IH]; simpl; congruence. Qed.

Lemma hexdigest_length (s : Sha256.hash_state) :
  String.length (Sha256.hexdigest s) = 64.
Proof.
  unfold Sha256.hexdigest. rewrite length_string_of_list_ascii.
  rewrite !length_app, !hex_word_length. reflexivity.
Qed.

Lemma hexdigest_lower (s : Sha256.hash_state) :
  Forall (fun c => Spec.is_lower_hex c = true)
         (list_ascii_of_string (Sha256.hexdigest s)).
Proof.
  unfold Sha256.hexdigest. rewrite list_ascii_of_string_of_list_ascii.
  repeat (apply Forall_app; split); apply hex_word_lower.
Qed.

(** The key of the credential of scenario A, as [hashlib] prints it. *)
Example get_cache_key_sample :
  get_cache_key Fixture.credential =
  "01c185531ab9c6e36dd1793b5bac688be320519636714fa7859e351a931a03a9".
Proof. vm_compute. reflexivity. Qed.

(** *** Encoding the code points *)

Lemma encode_from_total (s : list Z) (pos : nat) :
  Forall (fun c => Unicode.is_surrogate c = false) s ->
  exists encoded, Unicode.encode_from pos s = Return encoded.
Proof.
  intros Hs. revert pos. induction Hs as [|c s Hc _ IH]; intros pos; simpl.
  - eauto.
  - rewrite Hc. destruct (IH (S pos)) as [encoded ->]. simpl. eauto.
Qed.

Lemma encode_from_returns (s : list Z) (pos : nat) (encoded : list Z) :
  Unicode.encode_from pos s = Return encoded ->
  Forall (fun c => Unicode.is_surrogate c = false) s.
Proof.
  revert pos encoded. induction s as [|c s IH]; intros pos encoded; simpl.
  - constructor.
  - destruct (Unicode.is_surrogate c) eqn:Hc; [discriminate|].
    destruct (Unicode.encode_from (S pos) s) as [bs|e] eqn:He; [|discriminate].
    intros _. constructor; [done|]. by eapply IH.
Qed.

Lemma encode_from_raises (s : list Z) (pos : nat) (ex : exc) :
  Unicode.encode_from pos s = Raise ex ->
  exc_cls ex = UnicodeEncodeError /\ is_ValueError ex = true /\
  Exists (fun c => Unicode.is_surrogate c = true) s.
Proof.
  revert pos. induction s as [|c s IH]; intros pos; simpl; [discriminate|].
  destruct (Unicode.is_surrogate c) eqn:Hc.
  - intros [= <-]. split; [done|]. split; [done|]. by constructor.
  - destruct (Unicode.encode_from (S pos) s) as [bs|e] eqn:He; [discriminate|].
    simpl. intros [= ->]. destruct (IH _ He) as (Hcls & Hv & Hex).
    split; [done|]. split; [done|]. by apply Exists_cons_tl.
Qed.

Lemma utf8_bytes_range (c : Z) :
  Unicode.is_codepoint c = true ->
  Forall (fun b => (0 <= b < 256)%Z) (Unicode.utf8_bytes c).
Proof.
  unfold Unicode.is_codepoint, Unicode.utf8_bytes. intros Hc.
  apply andb_true_iff in Hc as [Hlo Hhi].
  apply Z.leb_le in Hlo. apply Z.leb_le in Hhi.
  destruct (Z.ltb_spec c 0x80); [repeat constructor; lia|].
  destruct (Z.ltb_spec c 0x800);
    [repeat constructor; Z.div_mod_to_equations; lia|].
  destruct (Z.ltb_spec c 0x10000);
    repeat constructor; Z.div_mod_to_equations; lia.
Qed.

Lemma encode_from_range (s : list Z) (pos : nat) (encoded : list Z) :
  Forall (fun c => Unicode.is_codepoint c = true) s ->
  Unicode.encode_from pos s = Return encoded ->
  Forall (fun b => (0 <= b < 256)%Z) encoded.
Proof.
  intros Hs. revert pos encoded.
  induction Hs as [|c s Hc _ IH]; intros pos encoded; simpl.
  - intros [= <-]. constructor.
  - destruct (Unicode.is_surrogate c); [discriminate|].
    destruct (Unicode.encode_from (S pos) s) as [bs|e] eqn:He; [|discriminate].
    simpl. intros [= <-]. apply Forall_app. split; [by apply utf8_bytes_range|].
    by eapply IH.
Qed.

(** The byte representation carries exactly the encoded bytes. *)
Lemma encode_utf8_string_of_bytes (bs : list Z) :
  Forall (fun b => (0 <= b < 256)%Z) bs ->
  Sha256.encode_utf8 (Unicode.string_of_bytes bs) = bs.
Proof.
  unfold Sha256.encode_utf8, Unicode.string_of_bytes.
  rewrite list_ascii_of_string_of_list_ascii.
  induction 1 as [|b bs Hb _ IH]; simpl; [done|]. f_equal; [|exact IH].
  rewrite N_ascii_embedding by lia. lia.
Qed.

(** C9 (amended): for every credential string [C] that has a UTF-8
    encoding, that is, without an unpaired surrogate code point,
    [get_cache_key] returns the SHA-256 digest of the UTF-8 bytes of [C]
    written as 64 lowercase hexadecimal characters, and equal strings give
    equal keys; it returns a key for no other string.  The digest is the one
    [hashlib] prints: on the empty string, on ["abc"], on messages of 55,
    56, 64, 119 and 120 bytes around the padding boundaries, on the
    credential of scenario A and on strings with two-, three- and four-byte
    code points.  The key is the one [handler] computes from the byte
    representation of the credential. *)
Theorem get_cache_key_deterministic_sha256_hex :
  (forall C,
     Forall (fun c => Unicode.is_surrogate c = false) C ->
     exists encoded,
       Unicode.encode C = Return encoded /\
       Unicode.get_cache_key C =
         Return (Sha256.hexdigest (Sha256.sha256 encoded)) /\
       String.length (Sha256.hexdigest (Sha256.sha256 encoded)) = 64 /\
       Forall (fun c => Spec.is_lower_hex c = true)
              (list_ascii_of_string (Sha256.hexdigest (Sha256.sha256 encoded))) /\
       (Forall (fun c => Unicode.is_codepoint c = true) C ->
        Sha256.hexdigest (Sha256.sha256 encoded) =
          Func.get_cache_key (Unicode.string_of_bytes encoded))) /\
  (forall C key,
     Unicode.get_cache_key C = Return key ->
     Forall (fun c => Unicode.is_surrogate c = false) C) /\
  (forall C C', C' = C -> Unicode.get_cache_key C' = Unicode.get_cache_key C) /\
  (Unicode.get_cache_key [] =
     Return "e3b0c44298fc1c149afbf4c8996fb92427ae41e4649b934ca495991b7852b855" /\
   Unicode.get_cache_key (Unicode.codepoints "abc") =
     Return "ba7816bf8f01cfea414140de5dae2223b00361a396177a9cb410ff61f20015ad" /\
   Unicode.get_cache_key (Unicode.codepoints
       "abcdbcdecdefdefgefghfghighijhijkijkljklmklmnlmnomnopnopq") =
     Return "248d6a61d20638b8e5c026930c3e6039a33ce45964ff2167f6ecedd419db06c1" /\
   Unicode.get_cache_key (repeat 97%Z 55) =
     Return "9f4390f8d30c2dd92ec9f095b65e2b9ae9b0a925a5258e241c9f1e910f734318" /\
   Unicode.get_cache_key (repeat 97%Z 56) =
     Return "b35439a4ac6f0948b6d6f9e3c6af0f5f590ce20f1bde7090ef7970686ec6738a" /\
   Unicode.get_cache_key (repeat 97%Z 64) =
     Return "ffe054fe7ae0cb6dc65c3af9b61d5209f439851db43d0ba5997337df154668eb" /\
   Unicode.get_cache_key (repeat 97%Z 119) =
     Return "31eba51c313a5c08226adf18d4a359cfdfd8d2e816b13f4af952f7ea6584dcfb" /\
   Unicode.get_cache_key (repeat 97%Z 120) =
     Return "2f3d335432c70b580af0e8e1b3674a7c020d683aa5f73aaaedfdc55af904c21c" /\
   Unicode.get_cache_key (Unicode.codepoints Fixture.credential) =
     Return "01c185531ab9c6e36dd1793b5bac688be320519636714fa7859e351a931a03a9" /\
   Unicode.get_cache_key
     (Unicode.codepoints "Basic " ++ [0xE9; 0x20AC; 0x1F600]%Z) =
     Return "5391b50c74a50faab21c39bca43befd03890d0188c42e454c525063b90a9dc1b" /\
   Unicode.get_cache_key [0x7F; 0x80; 0x7FF; 0x800; 0xFFFF; 0x10000]%Z =
     Return "8857a3f1b255b6e69405e9432b6d0d32514868af1075b3ffdbdac7a4d91f57ac" /\
   Unicode.get_cache_key [0xD7FF; 0xE000; 0x10FFFF]%Z =
     Return "1c1cb9b45943a616a02ae3e8aab77f8d92e864ef811c33a31195061523767339").
Proof.
  split; [|split; [|split]].
  - intros C Hs. destruct (encode_from_total C 0 Hs) as [encoded He].
    exists encoded. unfold Unicode.get_cache_key, Unicode.encode. rewrite He.
    split; [done|]. split; [done|]. split; [apply hexdigest_length|].
    split; [apply hexdigest_lower|]. intros Hcp.
    unfold Func.get_cache_key.
    by rewrite encode_utf8_string_of_bytes by (by eapply encode_from_range).
  - intros C key. unfold Unicode.get_cache_key, Unicode.encode.
    destruct (Unicode.encode_from 0 C) as [encoded|e] eqn:He; [|discriminate].
    intros _. by eapply encode_from_returns.
  - by intros C C' ->.
  - repeat split; vm_compute; reflexivity.
Qed.

(** The bytes and the error messages of [encode], as Python gives them. *)
Example encode_samples :
  Unicode.encode [0x7F; 0x80; 0x7FF; 0x800; 0xFFFF; 0x10000]%Z =
    Return [127; 194; 128; 223; 191; 224; 160; 128; 239; 191; 191;
            240; 144; 128; 128]%Z /\
  Unicode.encode [97; 98; 0xDFFF; 0xD800; 0xD801]%Z =
    Raise (Exc UnicodeEncodeError
      "'utf-8' codec can't encode characters in position 2-4: surrogates not allowed") /\
  Unicode.encode [97; 0xD800; 98; 0xD801]%Z =
    Raise (Exc UnicodeEncodeError
      "'utf-8' codec can't encode character '\ud800' in position 1: surrogates not allowed").
Proof. repeat split; vm_compute; reflexivity. Qed.

(** A string without encoding is answered with 400: [UnicodeEncodeError] is
    a [ValueError]. *)
Lemma get_cache_key_raises_value_error (C : list Z) (ex : exc) :
  Unicode.get_cache_key C = Raise ex ->
  exc_cls ex = UnicodeEncodeError /\ is_ValueError ex = true /\
  Exists (fun c => Unicode.is_surrogate c = true) C.
Proof.
  unfold Unicode.get_cache_key, Unicode.encode.
  destruct (Unicode.encode_from 0 C) as [encoded|e] eqn:He; [discriminate|].
  simpl. intros [= ->]. by eapply encode_from_raises.
Qed.

(** C9 as stated fails on a credential [json.loads] can deliver: the string
    ["Basic "] followed by the unpaired surrogate U+D800 passes the prefix
    test, has no UTF-8 encoding, and makes [get_cache_key] raise
    [UnicodeEncodeError] where the claim has a 64-character key. *)
Lemma get_cache_key_claim_fails :
  Unicode.get_cache_key (Unicode.codepoints "Basic " ++ [0xD800]%Z) =
    Raise (Exc UnicodeEncodeError
      "'utf-8' codec can't encode character '\ud800' in position 6: surrogates not allowed") /\
  ~ Spec.cache_key_claim (Unicode.codepoints "Basic " ++ [0xD800]%Z).
Proof.
  split; [vm_compute; reflexivity|].
  intros (key & Hkey & _). vm_compute in Hkey. discriminate Hkey.
Qed.

(** ** [init_context] *)

Lemma oauth_apps_size (st : state) :
  oauth_apps st ≠ ∅ <-> (size (oauth_apps st) <? 1) = false.
Proof.
  rewrite Nat.ltb_ge, <- map_size_non_empty_iff. lia.
Qed.

Lemma init_context_skip (context : gmap string string) (st : state) :
  oauth_apps st ≠ ∅ -> init_context context st = (Return tt, st).
Proof.
  intros Hne. unfold init_context.
  apply oauth_apps_size in Hne. rewrite Hne. reflexivity.
Qed.

(** C6: once [oauth_apps] is non-empty, [init_context] returns without
    raising and leaves both globals as they were, whatever the mapping it is
    given holds (also one without [TOKEN_URL] or [SCOPE]). *)
Theorem init_context_noop_once_loaded
    (context : gmap string string) (st : state) :
  oauth_apps st ≠ ∅ ->
  init_context context st = (Return tt, st).
Proof. apply init_context_skip. Qed.

Lemma init_context_noop_witness :
  oauth_apps Fixture.configured ≠ ∅ /\
  init_context ∅ Fixture.configured = (Return tt, Fixture.configured).
Proof.
  assert (H : oauth_apps Fixture.configured ≠ ∅).
  { apply oauth_apps_size. vm_compute. reflexivity. }
  split; [exact H|].
  exact (init_context_noop_once_loaded ∅ Fixture.configured H).
Defined.

(** A successful load leaves [oauth_apps] non-empty. *)
Lemma init_context_loads (context : gmap string string) (st st' : state) :
  init_context context st = (Return tt, st') -> oauth_apps st' ≠ ∅.
Proof.
  unfold init_context.
  destruct (size (oauth_apps st) <? 1) eqn:Hsz.
  - destruct (getitem context "TOKEN_URL") as [u|e]; simpl; [|discriminate].
    destruct (getitem context "SCOPE") as [s|e]; simpl; [|discriminate].
    intros [= <-]. simpl. apply insert_non_empty.
  - intros [= <-]. by apply oauth_apps_size.
Qed.

(** Loading twice is loading once: the second mapping is never read. *)
Lemma init_context_twice (c1 c2 : gmap string string) (st st' : state) :
  init_context c1 st = (Return tt, st') ->
  init_context c2 st' = (Return tt, st').
Proof.
  intros H. apply init_context_skip.
  by eapply init_context_loads.
Qed.

(** A failed load raises [KeyError] and retains nothing. *)
Lemma init_context_raises (context : gmap string string) (st st' : state) (e : exc) :
  init_context context st = (Raise e, st') ->
  st' = st /\ exc_cls e = KeyError /\ is_ValueError e = false /\
  (context !! "TOKEN_URL" = None \/ context !! "SCOPE" = None).
Proof.
  unfold init_context.
  destruct (size (oauth_apps st) <? 1); [|discriminate].
  unfold getitem.
  destruct (context !! "TOKEN_URL") as [u|] eqn:Hu; simpl.
  - destruct (context !! "SCOPE") as [s|] eqn:Hs; simpl; [discriminate|].
    intros [= <- <-]. auto.
  - intros [= <- <-]. auto.
Qed.

(** ** The token cache: [get_cached_token] and [cache_token] *)

Local Open Scope Qc_scope.

Lemma Qc_of_Z_lt (a b : Z) : (a < b)%Z -> Qc_of_Z a < Qc_of_Z b.
Proof. intros H. unfold Qclt, Qlt. simpl. lia. Qed.

Lemma Qc_shift_lt (now : Qc) (a b : Z) :
  (a < b)%Z -> now + Qc_of_Z a < now + Qc_of_Z b.
Proof. intros H. apply Qcplus_lt_mono_l, Qc_of_Z_lt, H. Qed.

Lemma Qc_shift_pos (now : Qc) (a : Z) :
  0 ≤ now -> (0 < a)%Z -> 0 < now + Qc_of_Z a.
Proof.
  intros Hnow Ha.
  apply Qcle_lt_trans with (y := now); [exact Hnow|].
  rewrite <- (Qcplus_0_r now) at 1.
  apply Qcplus_lt_mono_l. apply (Qc_of_Z_lt 0 a Ha).
Qed.

Lemma Qc_shift_nonzero (now : Qc) (a : Z) :
  0 ≤ now -> (0 < a)%Z -> now + Qc_of_Z a ≠ 0.
Proof.
  intros Hnow Ha Heq. pose proof (Qc_shift_pos now a Hnow Ha) as Hlt.
  rewrite Heq in Hlt. by apply Qclt_not_eq in Hlt.
Qed.

(** What [get_cached_token] computes when the clock is not negative: the
    zero test on [exp] is implied by [now < exp]. *)
Lemma get_cached_token_eq (now : Qc) (key : string) (st : state) :
  0 ≤ now ->
  get_cached_token now key st =
  (Return (match auth_cache st !! key with
           | Some td => if bool_decide (now < exp td) then token td else PyNone
           | None => PyNone
           end), st).
Proof.
  intros Hnow. unfold get_cached_token.
  destruct (auth_cache st !! key) as [td|]; [|reflexivity].
  destruct (bool_decide_reflect (now < exp td)) as [Hlt|Hge].
  - rewrite bool_decide_eq_true_2; [reflexivity|].
    intros Hz. rewrite Hz in Hlt. by apply Qcle_not_lt in Hnow.
  - rewrite andb_false_r. reflexivity.
Qed.

Lemma cache_token_lookup (now : Qc) (key : string) (tok : pyval)
    (e : option Qc) (st : state) :
  exists expiry,
    cache_token now key tok e st =
      (Return tt, State (<[key := TokenData tok expiry]> (auth_cache st)) (oauth_apps st)) /\
    expiry = match e with
             | Some x => if bool_decide (x = 0) then now + Qc_of_Z 300 else x
             | None => now + Qc_of_Z 300
             end.
Proof. eexists. split; reflexivity. Qed.

(** C1: with the clock at [now] (epoch seconds, not negative),
    [get_cached_token] returns the token stored under the key exactly when
    an entry exists and [now] is strictly before its expiry; with no entry
    and with an expired entry alike it returns [None], and it never changes
    the cache.  In particular, after [cache_token(key, "tok1", now + 100)]
    the lookup at [now + 50] returns ["tok1"] and the lookup at [now + 150]
    returns [None]. *)
Theorem get_cached_token_valid_iff (now : Qc) (key : string) (st : state) :
  0 ≤ now ->
  (forall td, auth_cache st !! key = Some td -> now < exp td ->
     get_cached_token now key st = (Return (token td), st)) /\
  ((forall td, auth_cache st !! key = Some td -> ~ now < exp td) ->
     get_cached_token now key st = (Return PyNone, st)) /\
  (forall tok, tok ≠ PyNone ->
     get_cached_token now key st = (Return tok, st) <->
     exists td, auth_cache st !! key = Some td /\ token td = tok /\ now < exp td) /\
  (forall t_insert,
     let st' := (cache_token t_insert key (PyStr "tok1")
                             (Some (now + Qc_of_Z 100)) st).2 in
     get_cached_token (now + Qc_of_Z 50) key st' = (Return (PyStr "tok1"), st') /\
     get_cached_token (now + Qc_of_Z 150) key st' = (Return PyNone, st')).
Proof.
  intros Hnow. repeat split.
  - intros td Htd Hlt. rewrite get_cached_token_eq, Htd by done.
    by rewrite bool_decide_eq_true_2.
  - intros Hexp. rewrite get_cached_token_eq by done.
    destruct (auth_cache st !! key) as [td|] eqn:Htd; [|done].
    by rewrite bool_decide_eq_false_2 by eauto.
  - rewrite get_cached_token_eq by done.
    destruct (auth_cache st !! key) as [td|] eqn:Htd.
    + destruct (bool_decide_reflect (now < exp td)) as [Hlt|Hge].
      * intros [= Ht]. eauto.
      * intros [= Ht]. congruence.
    + intros [= Ht]. congruence.
  - intros (td & Htd & <- & Hlt). rewrite get_cached_token_eq, Htd by done.
    by rewrite bool_decide_eq_true_2.
  - unfold cache_token, modify. simpl.
    rewrite bool_decide_eq_false_2 by (apply Qc_shift_nonzero; [done|lia]).
    rewrite get_cached_token_eq by (apply Qclt_le_weak, Qc_shift_pos; [done|lia]).
    simpl. rewrite lookup_insert_eq. simpl.
    rewrite bool_decide_eq_true_2 by (apply Qc_shift_lt; lia). reflexivity.
  - unfold cache_token, modify. simpl.
    rewrite bool_decide_eq_false_2 by (apply Qc_shift_nonzero; [done|lia]).
    rewrite get_cached_token_eq by (apply Qclt_le_weak, Qc_shift_pos; [done|lia]).
    simpl. rewrite lookup_insert_eq. simpl.
    rewrite bool_decide_eq_false_2; [reflexivity|].
    apply Qcle_not_lt, Qclt_le_weak, Qc_shift_lt. lia.
Qed.

Lemma t0_nonneg : 0 ≤ Fixture.t0.
Proof. vm_compute. discriminate. Defined.

Lemma get_cached_token_valid_iff_witness :
  0 ≤ Fixture.t0 /\
  (let st' := (cache_token Fixture.t0 "k" (PyStr "tok1")
                 (Some (Fixture.t0 + Qc_of_Z 100)) initial_state).2 in
   get_cached_token (Fixture.t0 + Qc_of_Z 50) "k" st' = (Return (PyStr "tok1"), st') /\
   get_cached_token (Fixture.t0 + Qc_of_Z 150) "k" st' = (Return PyNone, st')).
Proof.
  split; [exact t0_nonneg|].
  exact (proj2 (proj2 (proj2
    (get_cached_token_valid_iff Fixture.t0 "k" initial_state t0_nonneg))) Fixture.t0).
Defined.

(** A lookup never distinguishes a missing entry from an expired one. *)
Lemma get_cached_token_miss_is_expired (now : Qc) (key : string)
    (st : state) (td : token_data) :
  ~ now < exp td ->
  (get_cached_token now key (State (delete key (auth_cache st)) (oauth_apps st))).1 =
  (get_cached_token now key (State (<[key := td]> (auth_cache st)) (oauth_apps st))).1.
Proof.
  intros Hexp. unfold get_cached_token. simpl.
  rewrite lookup_delete_eq, lookup_insert_eq.
  rewrite (bool_decide_eq_false_2 (now < exp td)) by done.
  by rewrite andb_false_r.
Qed.

(** C5: [cache_token] with [exp = None] stores [now + 300] as the expiry;
    whatever [exp] is, the entry it writes replaces the one the key had and
    no other key changes; so, with the clock not negative, a lookup of the
    key at the same [now] returns the token just stored. *)
Theorem cache_token_fallback_and_overwrite
    (now : Qc) (key : string) (tok : pyval) (st : state) :
  0 ≤ now ->
  cache_token now key tok None st =
    (Return tt,
     State (<[key := TokenData tok (now + Qc_of_Z 300)]> (auth_cache st)) (oauth_apps st)) /\
  (forall e, exists expiry,
     let st' := (cache_token now key tok e st).2 in
     (cache_token now key tok e st).1 = Return tt /\
     auth_cache st' !! key = Some (TokenData tok expiry) /\
     (forall k, k ≠ key -> auth_cache st' !! k = auth_cache st !! k) /\
     oauth_apps st' = oauth_apps st) /\
  (let st' := (cache_token now key tok None st).2 in
   get_cached_token now key st' = (Return tok, st')).
Proof.
  intros Hnow. split; [reflexivity|]. split.
  - intros e. destruct (cache_token_lookup now key tok e st) as (expiry & -> & _).
    exists expiry. simpl. split; [done|]. split; [apply lookup_insert_eq|].
    split; [|done]. intros k Hk. by apply lookup_insert_ne.
  - simpl. rewrite get_cached_token_eq by done. simpl.
    rewrite lookup_insert_eq. simpl.
    rewrite bool_decide_eq_true_2; [reflexivity|].
    rewrite <- (Qcplus_0_r now) at 1. apply Qcplus_lt_mono_l.
    apply (Qc_of_Z_lt 0 300). lia.
Qed.

Lemma cache_token_fallback_and_overwrite_witness :
  0 ≤ Fixture.t0 /\
  (let st' := (cache_token Fixture.t0 "k" (PyStr "tok") None Fixture.configured).2 in
   get_cached_token Fixture.t0 "k" st' = (Return (PyStr "tok"), st')).
Proof.
  split; [exact t0_nonneg|].
  exact (proj2 (proj2
    (cache_token_fallback_and_overwrite Fixture.t0 "k" (PyStr "tok")
       Fixture.configured t0_nonneg))).
Defined.

(** Last writer wins: a second write to the key leaves the cache as if the
    first had not happened. *)
Lemma cache_token_last_writer_wins (now1 now2 : Qc) (key : string)
    (tok1 tok2 : pyval) (e1 e2 : option Qc) (st : state) :
  (cache_token now2 key tok2 e2 (cache_token now1 key tok1 e1 st).2).2 =
  (cache_token now2 key tok2 e2 st).2.
Proof.
  unfold cache_token, modify. simpl. by rewrite insert_insert_eq.
Qed.

(** ** [extract_auth_header] *)

(** [extract_auth_header] on a JSON object, location by location. *)
Lemma extract_auth_header_dict (d : list (string * pyval)) :
  extract_auth_header (PyDict d) =
  let tok := default PyNone (assoc "token" d) in
  if truthy tok then Spec.check_header tok else
  match default (PyDict []) (assoc "data" d) with
  | PyDict m =>
      let nested := default PyNone (assoc "Authorization" m) in
      if truthy nested then Spec.check_header nested
      else Spec.check_header (default PyNone (assoc "Authorization" d))
  | data => attribute_error data "get"
  end.
Proof.
  unfold extract_auth_header, Spec.check_header. simpl.
  destruct (truthy (default PyNone (assoc "token" d))) eqn:Et; simpl.
  - rewrite Et. reflexivity.
  - destruct (default (PyDict []) (assoc "data" d)) as [| | | | | |m];
      try reflexivity.
    simpl. destruct (truthy (default PyNone (assoc "Authorization" m))) eqn:En;
      simpl; [rewrite En|]; reflexivity.
Qed.

(** A payload that is no JSON object has no [.get]. *)
Lemma extract_auth_header_not_dict (body : pyval) :
  (forall d, body ≠ PyDict d) ->
  extract_auth_header body = attribute_error body "get".
Proof. intros H. destruct body; try reflexivity. by destruct (H d). Qed.

(** On a string the code's test and the specification's agree. *)
Lemma check_header_first_match (v : pyval) :
  truthy v = true -> (exists s, v = PyStr s) ->
  Spec.check_header v =
  match v with
  | PyStr s => if String.prefix "Basic " s then Return s else Raise missing_header
  | _ => Raise missing_header
  end.
Proof.
  intros Ht [s ->]. unfold Spec.check_header. rewrite Ht. reflexivity.
Qed.

Lemma check_header_falsy (v : pyval) :
  truthy v = false -> Spec.check_header v = Raise missing_header.
Proof. intros Ht. unfold Spec.check_header. by rewrite Ht. Qed.

(** One step of the walk over the three locations. *)
Ltac next_location :=
  first
    [ reflexivity
    | by rewrite check_header_falsy
    | rewrite check_header_first_match by eauto; reflexivity
    | match goal with
      | |- context [truthy ?v] => is_var v; destruct (truthy v) eqn:?; simpl in *
      | |- context [assoc ?k ?l] => destruct (assoc k l) as [?|]; simpl in *
      end ].

Lemma extract_auth_header_refines (payload : pyval) :
  Spec.well_typed payload ->
  extract_auth_header payload = Spec.extractCredential payload.
Proof.
  intros ([d ->] & Hdata & Hstr). rewrite extract_auth_header_dict.
  unfold Spec.extractCredential, Spec.first_match, Spec.locations in *.
  simpl in *.
  destruct (assoc "token" d) as [tok|]; simpl in *;
    [destruct (truthy tok) eqn:Et; [next_location|]|];
    specialize (Hdata eq_refl);
    destruct Hdata as [Hd | [m Hd]]; rewrite Hd in *; simpl in *;
    repeat next_location.
Qed.

(** C4 (amended): on a JSON object whose [data], when it is consulted, is
    absent or an object and whose first non-empty match is a string,
    [extract_auth_header] searches [token], [data.Authorization] and
    [Authorization] in this order; it returns the first non-empty match when
    that begins with ["Basic "], and it raises the validation error exactly
    when there is no non-empty match or the first one lacks the prefix. *)
Theorem extract_auth_header_first_match (payload : pyval) :
  Spec.well_typed payload ->
  Spec.extraction_claim payload /\
  (forall s, extract_auth_header payload = Return s <->
             Spec.first_match payload = Some (PyStr s) /\
             String.prefix "Basic " s = true) /\
  (extract_auth_header payload = Raise missing_header <->
   Spec.first_match payload = None \/
   exists s, Spec.first_match payload = Some (PyStr s) /\
             String.prefix "Basic " s = false) /\
  (forall e, extract_auth_header payload = Raise e -> e = missing_header).
Proof.
  intros Hwt. pose proof (extract_auth_header_refines payload Hwt) as Heq.
  destruct Hwt as (_ & _ & Hstr).
  split; [exact Heq|]. rewrite Heq. unfold Spec.extractCredential.
  destruct (Spec.first_match payload) as [v|].
  - destruct (Hstr v eq_refl) as [s0 ->].
    destruct (String.prefix "Basic " s0) eqn:Hp.
    + split; [|split].
      * intros s. split; [intros [= ->]; auto | intros [[= ->] _]; reflexivity].
      * split; [discriminate|].
        intros [[=] | (s1 & [= <-] & Hp1)]. congruence.
      * discriminate.
    + split; [|split].
      * intros s. split; [discriminate | intros [[= ->] Hp1]; congruence].
      * split; [intros _; right; eauto | reflexivity].
      * intros e [= <-]. reflexivity.
  - split; [|split].
    + intros s. split; [discriminate | intros [[=] _]].
    + split; [auto | reflexivity].
    + intros e [= <-]. reflexivity.
Qed.

Lemma payload_well_typed : Spec.well_typed Fixture.payload.
Proof.
  split; [by eexists|]. split.
  - vm_compute. discriminate.
  - intros v. vm_compute. intros [= <-]. by eexists.
Defined.

Lemma extract_auth_header_first_match_witness :
  Spec.well_typed Fixture.payload /\
  extract_auth_header Fixture.payload = Return Fixture.credential.
Proof.
  split; [exact payload_well_typed|].
  apply (proj1 (proj2 (extract_auth_header_first_match Fixture.payload
                         payload_well_typed))).
  vm_compute. split; reflexivity.
Defined.

(** C4 as stated fails on two payloads.  With [data] a string and a valid
    top-level [Authorization], the first non-empty match is the credential,
    yet the code raises [AttributeError] on [data] and never reads
    [Authorization].  With [token] a number, the first non-empty match lacks
    the prefix, yet the code raises [AttributeError], not the validation
    error. *)
Lemma extract_auth_header_claim_fails :
  (Spec.extractCredential Fixture.payload_data_string = Return "Basic abc" /\
   extract_auth_header Fixture.payload_data_string =
     Raise (Exc AttributeError "'str' object has no attribute 'get'") /\
   ~ Spec.extraction_claim Fixture.payload_data_string) /\
  (Spec.extractCredential Fixture.payload_token_number = Raise missing_header /\
   extract_auth_header Fixture.payload_token_number =
     Raise (Exc AttributeError "'int' object has no attribute 'startswith'") /\
   ~ Spec.extraction_claim Fixture.payload_token_number).
Proof.
  unfold Spec.extraction_claim.
  repeat split; try (vm_compute; reflexivity); vm_compute; discriminate.
Qed.

(** The three ways a location settles the outcome. *)
Ltac attribute_case :=
  right; unfold Spec.check_header; simpl in *;
  repeat match goal with H : _ = true |- _ => rewrite H end;
  simpl; eexists; reflexivity.

Ltac typed_case :=
  left; split; [eauto|]; split;
  [ intros; solve [congruence | eauto]
  | intros ?; simpl; solve [intros [= <-]; eauto | discriminate] ].

Ltac selected v :=
  destruct v; solve [discriminate | attribute_case | typed_case].

(** Outside the payloads of [Spec.well_typed] the code raises
    [AttributeError]: the amended statement covers every payload on which the
    validity test is reached. *)
Lemma extract_auth_header_typed_or_attribute_error (payload : pyval) :
  Spec.well_typed payload \/
  exists msg, extract_auth_header payload = Raise (Exc AttributeError msg).
Proof.
  destruct payload as [| | | | | |d]; try (right; eexists; reflexivity).
  rewrite extract_auth_header_dict.
  unfold Spec.well_typed, Spec.first_match, Spec.locations. simpl.
  destruct (assoc "token" d) as [tok|]; simpl;
    [destruct (truthy tok) eqn:Et; [selected tok|]|];
    (destruct (assoc "data" d) as [dat|]; simpl;
     [destruct dat as [| | | | | |m]; try (right; eexists; reflexivity); simpl;
      destruct (assoc "Authorization" m) as [n|]; simpl;
      [destruct (truthy n) eqn:En; [selected n|]|]|]);
    (destruct (assoc "Authorization" d) as [a|]; simpl;
     [destruct (truthy a) eqn:Ea; [selected a|]|]);
    typed_case.
Qed.

(** ** [handler]: the paths through the [try] block *)

Import Trace.
Local Open Scope Z_scope.

#[local] Arguments init_context : simpl never.
#[local] Arguments extract_auth_header : simpl never.
#[local] Arguments get_cache_key : simpl never.
#[local] Arguments get_cached_token : simpl never.
#[local] Arguments fetch_new_token : simpl never.
#[local] Arguments decode_jwt_expiry : simpl never.
#[local] Arguments cache_token : simpl never.
#[local] Arguments build_response : simpl never.
#[local] Arguments token_response : simpl never.

Lemma get_cached_token_returns (now : Qc) (key : string) (st : state) :
  exists v, get_cached_token now key st = (Return v, st).
Proof.
  unfold get_cached_token. destruct (auth_cache st !! key) as [td|]; [|eauto].
  destruct (_ && _); eauto.
Qed.

(** Every rule of [run] is a way [handler_try] computes. *)
Lemma run_sound rt config data st p st' :
  run rt config data st p st' ->
  handler_try rt config data st = (path_result rt p, st').
Proof.
  unfold handler_try, iam_field, lift, mbind, M_bind.
  destruct 1 as
    [ ex st1 Hi | ex st1 Hi Hl | ex st1 body Hi Hl He
    | ex st1 body h Hi Hl He Hg | st1 body h app c Hi Hl He Hg Hc Ht
    | ex st1 body h app c Hi Hl He Hg Hc Ht Hf
    | st1 st2 body h app c tok Hi Hl He Hg Hc Ht Hf Hs ];
    rewrite Hi; simpl.
  - reflexivity.
  - destruct (getvalue data) as [raw|e]; simpl in *; [by rewrite Hl | congruence].
  - destruct (getvalue data) as [raw|e]; simpl in *; [|congruence].
    by rewrite Hl, He.
  - destruct (getvalue data) as [raw|e]; simpl in *; [|congruence].
    destruct (get_cached_token_returns (time_lookup rt) (get_cache_key h) st1)
      as [c Hc].
    by rewrite Hl, He, Hc, Hg.
  - destruct (getvalue data) as [raw|e]; simpl in *; [|congruence].
    by rewrite Hl, He, Hc, Hg, Ht.
  - destruct (getvalue data) as [raw|e]; simpl in *; [|congruence].
    rewrite Hl, He, Hc, Hg, Ht. simpl. rewrite Hg. simpl. by rewrite Hf.
  - destruct (getvalue data) as [raw|e]; simpl in *; [|congruence].
    rewrite Hl, He, Hc, Hg, Ht. simpl. rewrite Hg. simpl. rewrite Hf.
    unfold cache_token, modify in Hs. by injection Hs as <-.
Qed.

(** Every invocation takes some path: the [try] block always ends. *)
Lemma run_total rt config data st : exists p st', run rt config data st p st'.
Proof.
  destruct (init_context config st) as [[[]|ex] st1] eqn:Hi;
    [|eauto using run].
  destruct (getvalue data ≫= json_loads rt) as [body|ex] eqn:Hl;
    [|eauto using run].
  destruct (extract_auth_header body) as [h|ex] eqn:He; [|eauto using run].
  destruct (getitem (oauth_apps st1) "iam") as [app|ex] eqn:Hg;
    [|eauto using run].
  destruct (get_cached_token_returns (time_lookup rt) (get_cache_key h) st1)
    as [c Hc].
  destruct (truthy c) eqn:Ht; [eauto using run|].
  destruct (fetch_new_token rt (TOKEN_URL app) (SCOPE app) h) as [tok|ex] eqn:Hf;
    [|eauto using run].
  eexists _, _. eapply run_cache_miss; eauto.
Qed.

(** ... and only one. *)
Lemma run_deterministic rt config data st p1 st1 p2 st2 :
  run rt config data st p1 st1 -> run rt config data st p2 st2 ->
  p1 = p2 /\ st1 = st2.
Proof.
  intros H1 H2. destruct H1; destruct H2; split; congruence.
Qed.

Lemma handler_of_run rt config data st p st' :
  run rt config data st p st' ->
  handler rt config data st = (path_response rt p, st').
Proof.
  intros Hrun. unfold handler. rewrite (run_sound _ _ _ _ _ _ Hrun).
  destruct p as [stg ex| |]; simpl; [|reflexivity..].
  unfold error_response. by destruct (is_ValueError ex).
Qed.


Lemma error_response_status rt ex :
  status_code (error_response rt ex) = 400 /\ is_ValueError ex = true \/
  status_code (error_response rt ex) = 500 /\ is_ValueError ex = false.
Proof. unfold error_response. destruct (is_ValueError ex); auto. Qed.


(** Every invocation answers, with status 200, 400 or 500. *)
Lemma handler_status_codes rt config data st :
  let resp := (handler rt config data st).1 in
  (status_code resp = 200 \/ status_code resp = 400 \/ status_code resp = 500)%Z.
Proof.
  destruct (run_total rt config data st) as (p & st' & Hrun).
  rewrite (handler_of_run _ _ _ _ _ _ Hrun). simpl.
  destruct p as [stg ex| |]; [|by left..].
  destruct (error_response_status rt ex) as [[Hs _]|[Hs _]];
    unfold path_response; rewrite Hs; auto.
Qed.

(** The stages that cannot raise: expiry decoding swallows the error of
    [jwt.decode], and both cache operations return. *)
Lemma decode_and_cache_never_raise rt now key tok e st :
  (forall ex, jwt_decode rt tok = Raise ex -> decode_jwt_expiry rt tok = None) /\
  (exists v, get_cached_token now key st = (Return v, st)) /\
  (exists st', cache_token now key tok e st = (Return tt, st')).
Proof.
  split; [|split].
  - intros ex Hex. unfold decode_jwt_expiry. by rewrite Hex.
  - apply get_cached_token_returns.
  - eexists. reflexivity.
Qed.


(** ** [handler]: which status an exception gets *)

Lemma check_header_raises (v : pyval) (ex : exc) :
  Spec.check_header v = Raise ex ->
  ex = missing_header \/ exc_cls ex = AttributeError.
Proof.
  unfold Spec.check_header. destruct (truthy v); simpl; [|intros [= <-]; auto].
  destruct v; try (intros [= <-]; auto).
  destruct (String.prefix "Basic " s); [discriminate|]. intros [= <-]. auto.
Qed.

(** [extract_auth_header] raises its validation error or, on a value of the
    wrong type, an [AttributeError]; nothing else. *)
Lemma extract_auth_header_raises (body : pyval) (ex : exc) :
  extract_auth_header body = Raise ex ->
  ex = missing_header \/ exc_cls ex = AttributeError.
Proof.
  destruct body as [| | | | | |d]; try (intros [= <-]; auto).
  rewrite extract_auth_header_dict. simpl.
  destruct (truthy (default PyNone (assoc "token" d)));
    [apply check_header_raises|].
  destruct (default (PyDict []) (assoc "data" d)) as [| | | | | |m];
    try (intros [= <-]; auto).
  destruct (truthy (default PyNone (assoc "Authorization" m)));
    apply check_header_raises.
Qed.

Lemma error_response_400 rt ex :
  is_ValueError ex = true ->
  error_response rt ex = build_response rt (error_body ex) 400.
Proof. unfold error_response. by intros ->. Qed.

Lemma error_response_500 rt ex :
  is_ValueError ex = false ->
  error_response rt ex = build_response rt (error_body ex) 500.
Proof. unfold error_response. by intros ->. Qed.

(** C3 (amended): an exception raised in the [try] block is answered by
    its class.  The validation error of extraction and a JSON decoding error
    of the payload (both [ValueError]s) are answered with 400; an exception
    that is no [ValueError] is answered with 500, so the [KeyError] of
    configuration loading, and the [AttributeError] of extraction on a value
    of the wrong type.  The body carries [str(ex)] in every case. *)
Theorem handler_status_by_exception_class rt config data st stg ex st1 :
  run rt config data st (Failed stg ex) st1 ->
  (is_ValueError ex = false ->
     handler rt config data st =
       (build_response rt (PyDict [("error", PyStr (exc_str ex))]) 500, st1)) /\
  (stg = ConfigLoading ->
     exc_cls ex = KeyError /\
     handler rt config data st =
       (build_response rt (PyDict [("error", PyStr (exc_str ex))]) 500, st1)) /\
  (stg = Extraction ->
     ex = missing_header /\
       handler rt config data st =
         (build_response rt (PyDict [("error", PyStr (exc_str ex))]) 400, st1) \/
     exc_cls ex = AttributeError /\
       handler rt config data st =
         (build_response rt (PyDict [("error", PyStr (exc_str ex))]) 500, st1)) /\
  (stg = PayloadDecoding -> exc_cls ex = JSONDecodeError ->
     handler rt config data st =
       (build_response rt (PyDict [("error", PyStr (exc_str ex))]) 400, st1)).
Proof.
  intros Hrun. pose proof (handler_of_run _ _ _ _ _ _ Hrun) as Hh.
  simpl in Hh. rewrite Hh. fold (error_body ex). split; [|split; [|split]].
  - intros Hnv. by rewrite error_response_500.
  - intros ->. inversion Hrun as [ex' st' Hi| | | | | |]; subst.
    apply init_context_raises in Hi as (_ & Hk & Hv & _).
    by rewrite error_response_500.
  - intros ->. inversion Hrun as [| |ex' st' body Hi Hl He| | | |]; subst.
    apply extract_auth_header_raises in He as [-> | Ha].
    + left. by rewrite error_response_400.
    + right. rewrite error_response_500; [done|].
      unfold is_ValueError. by rewrite Ha.
  - intros -> Hc. rewrite error_response_400; [done|].
    unfold is_ValueError. by rewrite Hc.
Qed.

Lemma handler_status_by_exception_class_witness :
  let rt := Fixture.scripted (Return (PyDict [])) Fixture.upstream_ok
                             Fixture.no_exp Fixture.t0 Fixture.t0 in
  run rt Fixture.config (Some "{}") initial_state
      (Failed Extraction missing_header) Fixture.configured /\
  handler rt Fixture.config (Some "{}") initial_state =
    (build_response rt (PyDict [("error", PyStr (exc_str missing_header))]) 400,
     Fixture.configured).
Proof.
  intros rt.
  assert (H : run rt Fixture.config (Some "{}") initial_state
                  (Failed Extraction missing_header) Fixture.configured).
  { eapply run_extraction_error; vm_compute; reflexivity. }
  split; [exact H|].
  destruct (proj1 (proj2 (proj2
      (handler_status_by_exception_class rt Fixture.config (Some "{}")
         initial_state Extraction missing_header Fixture.configured H))) eq_refl)
    as [[_ Hh] | [Ha _]]; [exact Hh | discriminate Ha].
Defined.

(** C3 as stated fails twice.  With an empty configuration mapping the load
    raises [KeyError] and the answer is 500, where the claim has 400; with a
    payload [json.loads] rejects the answer is 400, where the claim has
    500. *)
Lemma status_claim_fails :
  (let rt := Fixture.scripted (Return Fixture.payload) Fixture.upstream_ok
                              Fixture.no_exp Fixture.t0 Fixture.t0 in
   run rt ∅ (Some "{}") initial_state
       (Failed ConfigLoading (Exc KeyError "'TOKEN_URL'")) initial_state /\
   status_code (handler rt ∅ (Some "{}") initial_state).1 = 500 /\
   ~ Spec.status_claim rt ∅ (Some "{}") initial_state) /\
  (let rt := Fixture.scripted (Raise (Exc JSONDecodeError "Expecting value"))
                              Fixture.upstream_ok Fixture.no_exp
                              Fixture.t0 Fixture.t0 in
   run rt Fixture.config (Some "{") initial_state
       (Failed PayloadDecoding (Exc JSONDecodeError "Expecting value"))
       Fixture.configured /\
   status_code (handler rt Fixture.config (Some "{") initial_state).1 = 400 /\
   ~ Spec.status_claim rt Fixture.config (Some "{") initial_state).
Proof.
  split; intros rt.
  - assert (H : run rt ∅ (Some "{}") initial_state
                    (Failed ConfigLoading (Exc KeyError "'TOKEN_URL'")) initial_state)
      by (eapply run_config_error; vm_compute; reflexivity).
    split; [exact H|]. split; [vm_compute; reflexivity|].
    intros Hclaim. specialize (Hclaim _ _ _ H). vm_compute in Hclaim.
    discriminate.
  - assert (H : run rt Fixture.config (Some "{") initial_state
                    (Failed PayloadDecoding (Exc JSONDecodeError "Expecting value"))
                    Fixture.configured)
      by (eapply run_payload_error; vm_compute; reflexivity).
    split; [exact H|]. split; [vm_compute; reflexivity|].
    intros Hclaim. specialize (Hclaim _ _ _ H). vm_compute in Hclaim.
    discriminate.
Qed.

(** ** [fetch_new_token] and the status of a failed exchange *)

(** The request [fetch_new_token] sends. *)
Lemma fetch_new_token_request rt token_url scope auth_header :
  fetch_new_token rt token_url scope auth_header =
  (response_obj ← requests_post rt token_url
       [("Content-Type", "application/x-www-form-urlencoded");
        ("Authorization", auth_header)]
       [("grant_type", "client_credentials"); ("scope", scope)] 10;
   if negb (Py.status_code response_obj =? 200) then
     Raise (Exc RuntimeError ("Token request failed: " ++ text response_obj))
   else
     token_json ← json response_obj;
     access_token ← py_get token_json "access_token";
     if negb (truthy access_token) then
       Raise (Exc ValueError "No access token returned from OCI IAM")
     else Return access_token).
Proof. reflexivity. Qed.

(** A status other than 200 raises [RuntimeError], whatever the body. *)
Lemma fetch_new_token_non_200 rt token_url scope auth_header r :
  requests_post rt token_url
    [("Content-Type", "application/x-www-form-urlencoded");
     ("Authorization", auth_header)]
    [("grant_type", "client_credentials"); ("scope", scope)] 10 = Return r ->
  Py.status_code r ≠ 200 ->
  fetch_new_token rt token_url scope auth_header =
    Raise (Exc RuntimeError ("Token request failed: " ++ text r)).
Proof.
  intros Hpost Hst. rewrite fetch_new_token_request, Hpost. simpl.
  destruct (Z.eqb_spec (Py.status_code r) 200); [contradiction|reflexivity].
Qed.

(** Status 200 with a JSON object that has no (or an empty) [access_token]
    raises [ValueError]. *)
Lemma fetch_new_token_no_access_token rt token_url scope auth_header r d :
  requests_post rt token_url
    [("Content-Type", "application/x-www-form-urlencoded");
     ("Authorization", auth_header)]
    [("grant_type", "client_credentials"); ("scope", scope)] 10 = Return r ->
  Py.status_code r = 200 ->
  json r = Return (PyDict d) ->
  truthy (default PyNone (assoc "access_token" d)) = false ->
  fetch_new_token rt token_url scope auth_header =
    Raise (Exc ValueError "No access token returned from OCI IAM").
Proof.
  intros Hpost Hst Hjson Hfalsy. rewrite fetch_new_token_request, Hpost. simpl.
  rewrite Hst, Hjson. simpl. by rewrite Hfalsy.
Qed.

(** The exchange that fails on a status other than 200 is answered with
    500. *)
Lemma handler_exchange_non_200 rt config data st st1 r :
  (forall url hs form t, requests_post rt url hs form t = Return r) ->
  Py.status_code r ≠ 200 ->
  forall ex, run rt config data st (Failed Exchange ex) st1 ->
  handler rt config data st =
    (build_response rt
       (PyDict [("error", PyStr ("Token request failed: " ++ text r))]) 500, st1).
Proof.
  intros Hpost Hst ex Hrun. rewrite (handler_of_run _ _ _ _ _ _ Hrun).
  inversion Hrun as [| | | | |ex' st' body h app c Hi Hl He Hg Hc Ht Hf|]; subst.
  rewrite (fetch_new_token_non_200 _ _ _ _ r (Hpost _ _ _ _) Hst) in Hf.
  injection Hf as <-. reflexivity.
Qed.

(** The exchange that fails for want of an [access_token] is answered with
    400: its [ValueError] lands in the first [except] clause. *)
Lemma handler_exchange_no_access_token rt config data st st1 r d :
  (forall url hs form t, requests_post rt url hs form t = Return r) ->
  Py.status_code r = 200 ->
  json r = Return (PyDict d) ->
  truthy (default PyNone (assoc "access_token" d)) = false ->
  forall ex, run rt config data st (Failed Exchange ex) st1 ->
  handler rt config data st =
    (build_response rt
       (PyDict [("error", PyStr "No access token returned from OCI IAM")]) 400, st1).
Proof.
  intros Hpost Hst Hjson Hfalsy ex Hrun.
  rewrite (handler_of_run _ _ _ _ _ _ Hrun).
  inversion Hrun as [| | | | |ex' st' body h app c Hi Hl He Hg Hc Ht Hf|]; subst.
  rewrite (fetch_new_token_no_access_token _ _ _ _ r d (Hpost _ _ _ _) Hst Hjson Hfalsy)
    in Hf.
  injection Hf as <-. reflexivity.
Qed.

(** C2, at the input where the code departs from it: the credential of
    scenario A, an empty cache, and a token endpoint answering 200 with the
    JSON object [{}].  The exchange fails, and the invocation answers 400,
    not 500. *)
Theorem exchange_without_access_token_answers_400 :
  let rt := Fixture.scripted (Return Fixture.payload) Fixture.upstream_no_token
                             Fixture.no_exp Fixture.t0 Fixture.t0 in
  let ex := Exc ValueError "No access token returned from OCI IAM" in
  run rt Fixture.config (Some "{...}") initial_state (Failed Exchange ex)
      Fixture.configured /\
  handler rt Fixture.config (Some "{...}") initial_state =
    (build_response rt (PyDict [("error", PyStr (exc_str ex))]) 400,
     Fixture.configured) /\
  status_code (handler rt Fixture.config (Some "{...}") initial_state).1 ≠ 500.
Proof.
  intros rt ex. split; [|split].
  - eapply run_exchange_error with (cached_token := PyNone);
      vm_compute; reflexivity.
  - vm_compute. reflexivity.
  - vm_compute. discriminate.
Qed.

(** Scenario D: the token endpoint answers 401; the invocation answers 500
    with the upstream body text in the message. *)
Example scenario_upstream_401 :
  let rt := Fixture.scripted (Return Fixture.payload) Fixture.upstream_401
                             Fixture.no_exp Fixture.t0 Fixture.t0 in
  handler rt Fixture.config (Some "{...}") initial_state =
    (build_response rt
       (PyDict [("error", PyStr "Token request failed: unauthorized")]) 500,
     Fixture.configured).
Proof. vm_compute. reflexivity. Qed.

(** ** [handler]: a [data] field that is no object *)

(** C10: when the payload is a JSON object whose [token] is absent or empty
    and whose [data] is present but no object, [extract_auth_header] raises
    [AttributeError] at [data.get] without reading the top-level
    [Authorization] (whatever it holds), and the invocation answers 500. *)
Theorem handler_data_not_mapping_is_500 rt config raw st d v :
  json_loads rt raw = Return (PyDict d) ->
  truthy (default PyNone (assoc "token" d)) = false ->
  assoc "data" d = Some v ->
  (forall m, v ≠ PyDict m) ->
  extract_auth_header (PyDict d) =
    Raise (Exc AttributeError
             ("'" ++ type_name v ++ "' object has no attribute 'get'")) /\
  status_code (handler rt config (Some raw) st).1 = 500 /\
  (forall st1, init_context config st = (Return tt, st1) ->
     handler rt config (Some raw) st =
       (build_response rt
          (PyDict [("error",
                    PyStr ("'" ++ type_name v ++ "' object has no attribute 'get'"))])
          500, st1)).
Proof.
  intros Hload Htok Hdata Hv.
  assert (He : extract_auth_header (PyDict d) = attribute_error v "get").
  { rewrite extract_auth_header_dict. simpl. rewrite Htok, Hdata. simpl.
    destruct v; try reflexivity. by destruct (Hv d0). }
  split; [exact He|].
  assert (Hok : forall st1, init_context config st = (Return tt, st1) ->
            handler rt config (Some raw) st =
              (build_response rt (error_body (Exc AttributeError
                 ("'" ++ type_name v ++ "' object has no attribute 'get'"))) 500, st1)).
  { intros st1 Hi.
    assert (Hrun : run rt config (Some raw) st
                     (Failed Extraction (Exc AttributeError
                        ("'" ++ type_name v ++ "' object has no attribute 'get'"))) st1)
      by (eapply run_extraction_error; [exact Hi | exact Hload | exact He]).
    by rewrite (handler_of_run _ _ _ _ _ _ Hrun). }
  split; [|exact Hok].
  destruct (init_context config st) as [[[]|ex] st1] eqn:Hi.
  - by rewrite (Hok st1 eq_refl).
  - rewrite (handler_of_run rt config (Some raw) st _ st1
               (run_config_error _ _ _ _ _ _ Hi)).
    apply init_context_raises in Hi as (_ & _ & Hnv & _).
    unfold path_response. by rewrite error_response_500.
Qed.

Lemma handler_data_not_mapping_is_500_witness :
  let rt := Fixture.scripted (Return Fixture.payload_data_string)
              Fixture.upstream_ok Fixture.no_exp Fixture.t0 Fixture.t0 in
  extract_auth_header Fixture.payload_data_string =
    Raise (Exc AttributeError "'str' object has no attribute 'get'") /\
  status_code (handler rt Fixture.config (Some "{...}") initial_state).1 = 500.
Proof.
  intros rt.
  destruct (handler_data_not_mapping_is_500 rt Fixture.config "{...}"
              initial_state
              [("data", PyStr "x"); ("Authorization", PyStr "Basic abc")]
              (PyStr "x")) as (He & Hs & _);
    [reflexivity | reflexivity | reflexivity | discriminate | ].
  split; [exact He | exact Hs].
Defined.

(** ** [handler]: the success response *)

Lemma run_success_inv rt config data st p st' :
  run rt config data st p st' ->
  match p with
  | Failed _ _ => True
  | CacheHit scope tok =>
      exists body auth_header app,
        init_context config st = (Return tt, st') /\
        getvalue data ≫= json_loads rt = Return body /\
        extract_auth_header body = Return auth_header /\
        oauth_apps st' !! "iam" = Some app /\ SCOPE app = scope /\
        get_cached_token (time_lookup rt) (get_cache_key auth_header) st' =
          (Return tok, st') /\
        truthy tok = true
  | CacheMiss scope tok =>
      exists body auth_header app st1 cached,
        init_context config st = (Return tt, st1) /\
        getvalue data ≫= json_loads rt = Return body /\
        extract_auth_header body = Return auth_header /\
        oauth_apps st1 !! "iam" = Some app /\ SCOPE app = scope /\
        get_cached_token (time_lookup rt) (get_cache_key auth_header) st1 =
          (Return cached, st1) /\
        truthy cached = false /\
        fetch_new_token rt (TOKEN_URL app) scope auth_header = Return tok /\
        cache_token (time_insert rt) (get_cache_key auth_header) tok
                    (decode_jwt_expiry rt tok) st1 = (Return tt, st')
  end.
Proof.
  assert (Hget : forall (m : gmap string iam_app) app,
            getitem m "iam" = Return app -> m !! "iam" = Some app).
  { intros m app. unfold getitem. destruct (m !! "iam"); [|discriminate].
    by intros [= ->]. }
  destruct 1; try exact I.
  - repeat eexists; eauto.
  - repeat eexists; eauto.
Qed.

(** Both success paths answer 200 with the same dict, filled with the
    configured scope and the token of the path. *)
Lemma handler_success_paths rt config data st scope tok st' :
  run rt config data st (CacheHit scope tok) st' \/
  run rt config data st (CacheMiss scope tok) st' ->
  handler rt config data st =
    (build_response rt (token_response rt scope tok) 200, st').
Proof. intros [Hrun|Hrun]; by rewrite (handler_of_run _ _ _ _ _ _ Hrun). Qed.

(** A truthy value returned by [get_cached_token] is the token of the
    key's entry, which has not expired. *)
Lemma get_cached_token_truthy (now : Qc) (key : string) (st : state) (tok : pyval) :
  get_cached_token now key st = (Return tok, st) ->
  truthy tok = true ->
  exists td, auth_cache st !! key = Some td /\ token td = tok /\ (now < exp td)%Qc.
Proof.
  unfold get_cached_token.
  destruct (auth_cache st !! key) as [td|]; [|by intros [= <-]].
  destruct (bool_decide_reflect (exp td ≠ 0%Qc)); simpl; [|by intros [= <-]].
  destruct (bool_decide_reflect (now < exp td)%Qc); [|by intros [= <-]].
  intros [= <-] _. eauto.
Qed.

(** C7: both success paths answer 200 with a body of the same shape,
    [{"active": true, "scope": SCOPE, "context": {"token_response":
    "Bearer " + token}}] with the configured scope.  When the lookup of the
    credential's key returns a truthy token (cache hit), the answer carries
    that cached token and the globals stay as configuration loading left
    them; when it returns none and the exchange succeeds (cache miss), the
    answer carries the token [fetch_new_token] returned, which is then
    cached under the key.  No other path answers 200: a 200 response is one
    of these two, its token the one of the unexpired cache entry on a hit
    and the newly fetched and stored one on a miss. *)
Theorem handler_success_shape rt config data st :
  (forall st1 body auth_header app tok,
     init_context config st = (Return tt, st1) ->
     getvalue data ≫= json_loads rt = Return body ->
     extract_auth_header body = Return auth_header ->
     oauth_apps st1 !! "iam" = Some app ->
     get_cached_token (time_lookup rt) (get_cache_key auth_header) st1 =
       (Return tok, st1) ->
     truthy tok = true ->
     handler rt config data st =
       (Response
          (json_dumps rt
             (PyDict [("active", PyBool true);
                      ("scope", PyStr (SCOPE app));
                      ("context",
                       PyDict [("token_response",
                                PyStr ("Bearer " ++ py_str rt tok))])]))
          200 [("Content-Type", "application/json")], st1)) /\
  (forall st1 body auth_header app cached tok,
     init_context config st = (Return tt, st1) ->
     getvalue data ≫= json_loads rt = Return body ->
     extract_auth_header body = Return auth_header ->
     oauth_apps st1 !! "iam" = Some app ->
     get_cached_token (time_lookup rt) (get_cache_key auth_header) st1 =
       (Return cached, st1) ->
     truthy cached = false ->
     fetch_new_token rt (TOKEN_URL app) (SCOPE app) auth_header = Return tok ->
     handler rt config data st =
       (Response
          (json_dumps rt
             (PyDict [("active", PyBool true);
                      ("scope", PyStr (SCOPE app));
                      ("context",
                       PyDict [("token_response",
                                PyStr ("Bearer " ++ py_str rt tok))])]))
          200 [("Content-Type", "application/json")],
        (cache_token (time_insert rt) (get_cache_key auth_header) tok
                     (decode_jwt_expiry rt tok) st1).2)) /\
  (forall resp st',
     handler rt config data st = (resp, st') ->
     status_code resp = 200 ->
     exists body auth_header app tok,
       getvalue data ≫= json_loads rt = Return body /\
       extract_auth_header body = Return auth_header /\
       oauth_apps st' !! "iam" = Some app /\
       resp = Response
                (json_dumps rt
                   (PyDict [("active", PyBool true);
                            ("scope", PyStr (SCOPE app));
                            ("context",
                             PyDict [("token_response",
                                      PyStr ("Bearer " ++ py_str rt tok))])]))
                200 [("Content-Type", "application/json")] /\
       (init_context config st = (Return tt, st') /\
        (exists td, auth_cache st' !! get_cache_key auth_header = Some td /\
                    token td = tok /\ (time_lookup rt < exp td)%Qc) /\
        truthy tok = true
        \/
        exists st1 cached expiry,
          init_context config st = (Return tt, st1) /\
          get_cached_token (time_lookup rt) (get_cache_key auth_header) st1 =
            (Return cached, st1) /\
          truthy cached = false /\
          fetch_new_token rt (TOKEN_URL app) (SCOPE app) auth_header = Return tok /\
          st' = State (<[get_cache_key auth_header := TokenData tok expiry]>
                         (auth_cache st1)) (oauth_apps st1))).
Proof.
  assert (Hget : forall (m : gmap string iam_app) app,
            m !! "iam" = Some app -> getitem m "iam" = Return app).
  { intros m app Hm. unfold getitem. by rewrite Hm. }
  split; [|split].
  - intros st1 body h app tok Hi Hl He Hg Hc Ht.
    assert (Hrun : run rt config data st (CacheHit (SCOPE app) tok) st1)
      by (eapply run_cache_hit; eauto).
    by rewrite (handler_of_run _ _ _ _ _ _ Hrun).
  - intros st1 body h app c tok Hi Hl He Hg Hc Ht Hf.
    assert (Hrun : run rt config data st (CacheMiss (SCOPE app) tok)
                     (cache_token (time_insert rt) (get_cache_key h) tok
                                  (decode_jwt_expiry rt tok) st1).2)
      by (eapply run_cache_miss; eauto).
    by rewrite (handler_of_run _ _ _ _ _ _ Hrun).
  - intros resp st' Hh Hstatus.
    destruct (run_total rt config data st) as (p & st2 & Hrun).
    rewrite (handler_of_run _ _ _ _ _ _ Hrun) in Hh. injection Hh as <- <-.
    pose proof (run_success_inv _ _ _ _ _ _ Hrun) as Hinv.
    destruct p as [stg ex|scope tok|scope tok].
    + exfalso. unfold path_response in Hstatus.
      destruct (error_response_status rt ex) as [[Hs _]|[Hs _]];
        rewrite Hs in Hstatus; discriminate.
    + destruct Hinv as (body & h & app & Hi & Hl & He & Hg & <- & Hc & Ht).
      exists body, h, app, tok. repeat (split; [done|]). left.
      split; [done|]. split; [|done]. by eapply get_cached_token_truthy.
    + destruct Hinv as (body & h & app & st1 & c & Hi & Hl & He & Hg & <- & Hc & Ht & Hf & Hs).
      destruct (cache_token_lookup (time_insert rt) (get_cache_key h) tok
                  (decode_jwt_expiry rt tok) st1) as (expiry & Hs' & _).
      rewrite Hs' in Hs. injection Hs as <-.
      exists body, h, app, tok. repeat (split; [done|]). right.
      exists st1, c, expiry. done.
Qed.

(** Scenarios A and B as a witness: the first call misses, fetches ["tok1"]
    and caches it; the second, ten seconds later with the endpoint down,
    hits and answers with the cached ["tok1"]. *)
Lemma handler_success_shape_witness :
  let body := PyDict [("active", PyBool true);
                      ("scope", PyStr "urn:opc:scope");
                      ("context",
                       PyDict [("token_response", PyStr "Bearer tok1")])] in
  let later := (Fixture.t0 + Qc_of_Z 10)%Qc in
  let rt1 := Fixture.scripted (Return Fixture.payload) Fixture.upstream_ok
                              Fixture.no_exp Fixture.t0 Fixture.t0 in
  let rt2 := Fixture.scripted (Return Fixture.payload) Fixture.upstream_401
                              Fixture.no_exp later later in
  let st1 := (cache_token Fixture.t0 (get_cache_key Fixture.credential)
                          (PyStr "tok1") None Fixture.configured).2 in
  handler rt1 Fixture.config (Some "{...}") initial_state =
    (Response (Fixture.render body) 200 [("Content-Type", "application/json")], st1) /\
  handler rt2 Fixture.config (Some "{...}") st1 =
    (Response (Fixture.render body) 200 [("Content-Type", "application/json")], st1).
Proof.
  intros body later rt1 rt2 st1. split.
  - refine (proj1 (proj2 (handler_success_shape rt1 Fixture.config (Some "{...}")
                            initial_state))
              Fixture.configured Fixture.payload Fixture.credential
              (IamApp "https://idcs.example/oauth2/v1/token" "urn:opc:scope")
              PyNone (PyStr "tok1") _ _ _ _ _ _ _);
      vm_compute; reflexivity.
  - refine (proj1 (handler_success_shape rt2 Fixture.config (Some "{...}") st1)
              st1 Fixture.payload Fixture.credential
              (IamApp "https://idcs.example/oauth2/v1/token" "urn:opc:scope")
              (PyStr "tok1") _ _ _ _ _ _);
      vm_compute; reflexivity.
Defined.

(** ** End-to-end scenarios *)

(** The globals after scenario A: the configuration, and ["tok1"] cached
    under the key of the credential until [t0 + 300]. *)
Example scenario_first_call :
  let rt := Fixture.scripted (Return Fixture.payload) Fixture.upstream_ok
                             Fixture.no_exp Fixture.t0 Fixture.t0 in
  let out := handler rt Fixture.config (Some "{...}") initial_state in
  out.1 = build_response rt (token_response rt "urn:opc:scope" (PyStr "tok1")) 200 /\
  auth_cache out.2 !! get_cache_key Fixture.credential =
    Some (TokenData (PyStr "tok1") (Fixture.t0 + Qc_of_Z 300)%Qc).
Proof. split; vm_compute; reflexivity. Qed.

(** The body of scenario A as text, under the fixture's rendering. *)
Example scenario_first_call_body :
  let rt := Fixture.scripted (Return Fixture.payload) Fixture.upstream_ok
                             Fixture.no_exp Fixture.t0 Fixture.t0 in
  let q := Fixture.quoted in
  response_data (handler rt Fixture.config (Some "{...}") initial_state).1 =
  ("{" ++ q "active" ++ ": true, " ++ q "scope" ++ ": " ++ q "urn:opc:scope" ++
   ", " ++ q "context" ++ ": {" ++ q "token_response" ++ ": " ++
   q "Bearer tok1" ++ "}}")%string.
Proof. vm_compute. reflexivity. Qed.

(** Scenario B: ten seconds later the same credential is served from the
    cache; the endpoint, which would now answer 401, is not asked, and the
    globals do not change. *)
Example scenario_second_call :
  let rt1 := Fixture.scripted (Return Fixture.payload) Fixture.upstream_ok
                              Fixture.no_exp Fixture.t0 Fixture.t0 in
  let st1 := (handler rt1 Fixture.config (Some "{...}") initial_state).2 in
  let later := (Fixture.t0 + Qc_of_Z 10)%Qc in
  let rt2 := Fixture.scripted (Return Fixture.payload) Fixture.upstream_401
                              Fixture.no_exp later later in
  handler rt2 ∅ (Some "{...}") st1 =
    (build_response rt2 (token_response rt2 "urn:opc:scope" (PyStr "tok1")) 200, st1).
Proof. vm_compute. reflexivity. Qed.

(** Scenario C: the payload [{}] is answered with 400 and the validation
    message. *)
Example scenario_empty_payload :
  let rt := Fixture.scripted (Return (PyDict [])) Fixture.upstream_ok
                             Fixture.no_exp Fixture.t0 Fixture.t0 in
  handler rt Fixture.config (Some "{}") initial_state =
    (build_response rt
       (PyDict [("error", PyStr "Missing or invalid Authorization header")]) 400,
     Fixture.configured).
Proof. vm_compute. reflexivity. Qed.

(** A payload with the wrong scheme fails extraction with the validation
    error. *)
Example extract_auth_header_bearer :
  extract_auth_header (PyDict [("Authorization", PyStr "Bearer xyz")]) =
  Raise missing_header.
Proof. reflexivity. Qed.

(* ===================================================================== *)
(** * Further properties of the code                                       *)
(* ===================================================================== *)

Import Invariant.

(** ** Configuration across invocations *)

(** What [init_context] can do to the globals. *)
Lemma init_context_globals (config : gmap string string) (st st1 : state)
    (r : result unit) :
  init_context config st = (r, st1) ->
  auth_cache st1 = auth_cache st /\
  (st1 = st \/
   oauth_apps st = ∅ /\ r = Return tt /\
   exists u s, config !! "TOKEN_URL" = Some u /\ config !! "SCOPE" = Some s /\
               oauth_apps st1 = {[ "iam" := IamApp u s ]}).
Proof.
  unfold init_context.
  destruct (size (oauth_apps st) <? 1)%nat eqn:Hsz; [|intros [= <- <-]; auto].
  assert (He : oauth_apps st = ∅).
  { apply Nat.ltb_lt in Hsz. apply map_size_empty_iff. lia. }
  unfold getitem.
  destruct (config !! "TOKEN_URL") as [u|]; simpl; [|intros [= <- <-]; auto].
  destruct (config !! "SCOPE") as [sc|]; simpl; [|intros [= <- <-]; auto].
  intros [= <- <-]. simpl. split; [done|]. right.
  split; [done|]. split; [done|]. exists u, sc. rewrite He. auto.
Qed.

(** A token [fetch_new_token] returns is truthy and is the [access_token]
    of a JSON object received with status 200. *)
Lemma fetch_new_token_inv rt token_url scope auth_header tok :
  fetch_new_token rt token_url scope auth_header = Return tok ->
  truthy tok = true /\
  exists r d,
    token_request rt token_url scope auth_header = Return r /\
    Py.status_code r = 200 /\
    json r = Return (PyDict d) /\
    assoc "access_token" d = Some tok.
Proof.
  rewrite fetch_new_token_request. fold (token_request rt token_url scope auth_header).
  destruct (token_request rt token_url scope auth_header) as [r|e]; simpl;
    [|discriminate].
  destruct (Z.eqb_spec (Py.status_code r) 200) as [Hst|Hst]; simpl; [|discriminate].
  destruct (json r) as [v|e] eqn:Hj; simpl; [|discriminate].
  destruct v as [| | | | | |d]; simpl; try discriminate.
  destruct (assoc "access_token" d) as [a|] eqn:Ha; simpl; [|discriminate].
  destruct (truthy a) eqn:Ht; simpl; [|discriminate].
  intros [= <-]. split; [done|]. exists r, d. auto.
Qed.

(** The expiry [cache_token] stores. *)
Lemma cache_token_expiry (now : Qc) (key : string) (tok : pyval)
    (e : option Qc) (st : state) :
  exists expiry,
    cache_token now key tok e st =
      (Return tt, State (<[key := TokenData tok expiry]> (auth_cache st)) (oauth_apps st)) /\
    ((exists x, e = Some x /\ x <> 0%Qc /\ expiry = x) \/
     (e = None \/ e = Some 0%Qc) /\ expiry = (now + Qc_of_Z 300)%Qc).
Proof.
  unfold cache_token, modify. destruct e as [x|].
  - destruct (bool_decide_reflect (x = 0%Qc)) as [->|Hx]; eexists; (split; [reflexivity|]).
    + right. auto.
    + left. eauto.
  - eexists. split; [reflexivity|]. right. auto.
Qed.

(** What a path can do to the globals: after configuration loading, nothing,
    or on a cache miss one write of a truthy token to the cache. *)
Lemma run_globals rt config data st p st' :
  run rt config data st p st' ->
  exists r st1,
    init_context config st = (r, st1) /\
    (st' = st1 /\ (forall scope tok, p <> CacheMiss scope tok) \/
     exists key scope tok expiry,
       p = CacheMiss scope tok /\ truthy tok = true /\
       (expiry <> 0%Qc \/ expiry = (time_insert rt + Qc_of_Z 300)%Qc) /\
       st' = State (<[key := TokenData tok expiry]> (auth_cache st1)) (oauth_apps st1)).
Proof.
  destruct 1 as
    [ ex st1 Hi | ex st1 Hi Hl | ex st1 body Hi Hl He
    | ex st1 body h Hi Hl He Hg | st1 body h app c Hi Hl He Hg Hc Ht
    | ex st1 body h app c Hi Hl He Hg Hc Ht Hf
    | st1 st2 body h app c tok Hi Hl He Hg Hc Ht Hf Hs ];
    eexists _, st1; (split; [exact Hi|]); try (left; split; [reflexivity|discriminate]).
  right. apply fetch_new_token_inv in Hf as [Htok _].
  destruct (cache_token_expiry (time_insert rt) (get_cache_key h) tok
              (decode_jwt_expiry rt tok) st1) as (expiry & Hs' & Hcase).
  rewrite Hs' in Hs. injection Hs as <-.
  exists (get_cache_key h), (SCOPE app), tok, expiry.
  split; [done|]. split; [done|]. split; [|done].
  destruct Hcase as [(x & _ & Hx & ->) | [_ ->]]; auto.
Qed.

Lemma handler_config_error rt config data st ex st1 :
  init_context config st = (Raise ex, st1) ->
  handler rt config data st = (build_response rt (error_body ex) 500, st).
Proof.
  intros Hi.
  rewrite (handler_of_run _ _ _ _ _ _ (run_config_error rt config data st ex st1 Hi)).
  apply init_context_raises in Hi as (-> & _ & Hnv & _).
  unfold path_response. by rewrite error_response_500.
Qed.

(** X1: with nothing loaded yet, a configuration mapping that lacks
    [TOKEN_URL] or [SCOPE] makes [init_context] raise [KeyError] for the
    first missing key, [TOKEN_URL] before [SCOPE], and retain nothing; the
    invocation then answers 500 with that key, quoted, as the message,
    whatever the payload is. *)
Theorem init_context_missing_key (context : gmap string string) (st : state) :
  oauth_apps st = ∅ ->
  context !! "TOKEN_URL" = None \/ context !! "SCOPE" = None ->
  exists k,
    (k = "TOKEN_URL" \/ k = "SCOPE" /\ is_Some (context !! "TOKEN_URL")) /\
    context !! k = None /\
    init_context context st = (Raise (Exc KeyError ("'" ++ k ++ "'")), st) /\
    forall rt data,
      handler rt context data st =
        (build_response rt (PyDict [("error", PyStr ("'" ++ k ++ "'"))]) 500, st).
Proof.
  intros Hempty Hmiss.
  assert (Hsz : (size (oauth_apps st) <? 1)%nat = true).
  { rewrite Hempty, map_size_empty. reflexivity. }
  assert (Hk : exists k,
             (k = "TOKEN_URL" \/ k = "SCOPE" /\ is_Some (context !! "TOKEN_URL")) /\
             context !! k = None /\
             init_context context st = (Raise (Exc KeyError ("'" ++ k ++ "'")), st)).
  { unfold init_context. rewrite Hsz. unfold getitem.
    destruct (context !! "TOKEN_URL") as [u|] eqn:Hu; simpl.
    - destruct Hmiss as [|Hs]; [discriminate|]. rewrite Hs. simpl.
      exists "SCOPE". eauto 6.
    - exists "TOKEN_URL". auto. }
  destruct Hk as (k & Hwhich & Hnone & Hi). exists k.
  split; [done|]. split; [done|]. split; [done|].
  intros rt data. by rewrite (handler_config_error _ _ _ _ _ _ Hi).
Qed.

Lemma init_context_missing_key_witness :
  exists k,
    init_context Fixture.config_no_scope initial_state =
      (Raise (Exc KeyError ("'" ++ k ++ "'")), initial_state) /\
    k = "SCOPE".
Proof.
  destruct (init_context_missing_key Fixture.config_no_scope initial_state
              eq_refl (or_intror eq_refl))
    as (k & Hwhich & Hnone & Hi & _).
  exists k. split; [exact Hi|].
  destruct Hwhich as [-> | [-> _]]; [|reflexivity].
  vm_compute in Hnone. discriminate Hnone.
Defined.

(** X2: once a configuration is loaded, the mapping passed to [handler] is
    not read any more: any two mappings give the same answer and the same
    globals, and [oauth_apps] stays as it was. *)
Theorem handler_ignores_later_configuration rt config config' data st :
  oauth_apps st <> ∅ ->
  handler rt config data st = handler rt config' data st /\
  oauth_apps (handler rt config data st).2 = oauth_apps st.
Proof.
  intros Hne. split.
  - unfold handler, handler_try, mbind, M_bind.
    by rewrite !(init_context_skip _ st Hne).
  - destruct (run_total rt config data st) as (p & st' & Hrun).
    rewrite (handler_of_run _ _ _ _ _ _ Hrun). simpl.
    apply run_globals in Hrun as (r & st1 & Hi & Hst).
    rewrite (init_context_skip _ st Hne) in Hi. injection Hi as _ <-.
    destruct Hst as [[-> _] | (key & scope & tok & expiry & _ & _ & _ & ->)]; done.
Qed.

Lemma handler_ignores_later_configuration_witness :
  handler Fixture.first_call Fixture.config (Some "{...}") Fixture.configured =
  handler Fixture.first_call ∅ (Some "{...}") Fixture.configured.
Proof.
  assert (H : oauth_apps Fixture.configured <> ∅).
  { apply oauth_apps_size. vm_compute. reflexivity. }
  exact (proj1 (handler_ignores_later_configuration Fixture.first_call
                  Fixture.config ∅ (Some "{...}") Fixture.configured H)).
Defined.

(** X3: a first invocation whose configuration mapping has both keys leaves
    exactly that configuration in [oauth_apps], also when the invocation
    then fails (bad payload, failed exchange): the load is not undone. *)
Theorem handler_retains_loaded_configuration rt config data st u s :
  oauth_apps st = ∅ ->
  config !! "TOKEN_URL" = Some u ->
  config !! "SCOPE" = Some s ->
  oauth_apps (handler rt config data st).2 = {[ "iam" := IamApp u s ]}.
Proof.
  intros Hempty Hu Hs.
  destruct (run_total rt config data st) as (p & st' & Hrun).
  rewrite (handler_of_run _ _ _ _ _ _ Hrun). simpl.
  apply run_globals in Hrun as (r & st1 & Hi & Hst).
  assert (Ho : oauth_apps st1 = {[ "iam" := IamApp u s ]}).
  { pose proof Hi as Hi'. apply init_context_globals in Hi' as (_ & [-> | Hload]).
    - exfalso. unfold init_context in Hi.
      rewrite Hempty, map_size_empty in Hi. unfold getitem in Hi.
      rewrite Hu, Hs in Hi. simpl in Hi. injection Hi as _ Hst1.
      apply (f_equal oauth_apps) in Hst1. simpl in Hst1.
      rewrite Hempty in Hst1. by apply insert_non_empty in Hst1.
    - destruct Hload as (_ & _ & u' & s' & Hu' & Hs' & ->). congruence. }
  destruct Hst as [[-> _] | (key & scope & tok & expiry & _ & _ & _ & ->)]; done.
Qed.

Lemma handler_retains_loaded_configuration_witness :
  oauth_apps (handler Fixture.endpoint_down Fixture.config (Some "{...}")
                      initial_state).2 =
  {[ "iam" := IamApp "https://idcs.example/oauth2/v1/token" "urn:opc:scope" ]}.
Proof.
  exact (handler_retains_loaded_configuration Fixture.endpoint_down Fixture.config
           (Some "{...}") initial_state _ _ eq_refl eq_refl eq_refl).
Defined.

(** ** Extraction on arbitrary payloads *)

Lemma check_header_returns (v : pyval) (s : string) :
  Spec.check_header v = Return s ->
  v = PyStr s /\ String.prefix "Basic " s = true.
Proof.
  unfold Spec.check_header. destruct (truthy v); simpl; [|discriminate].
  destruct v as [| | | |s0| |]; try discriminate.
  destruct (String.prefix "Basic " s0) eqn:Hp; [|discriminate].
  intros [= ->]. auto.
Qed.

(** X4: whatever the payload, a credential [extract_auth_header] returns
    begins with ["Basic "] and is the string held by one of the three
    locations of a JSON object: [token], [data.Authorization] or
    [Authorization]. *)
Theorem extract_auth_header_returns_basic (body : pyval) (s : string) :
  extract_auth_header body = Return s ->
  String.prefix "Basic " s = true /\
  exists d,
    body = PyDict d /\
    (assoc "token" d = Some (PyStr s) \/
     (exists m, assoc "data" d = Some (PyDict m) /\
                assoc "Authorization" m = Some (PyStr s)) \/
     assoc "Authorization" d = Some (PyStr s)).
Proof.
  destruct body as [| | | | | |d]; try discriminate.
  rewrite extract_auth_header_dict. simpl. intros H.
  assert (Hloc : forall (o : option pyval),
             Spec.check_header (default PyNone o) = Return s ->
             o = Some (PyStr s) /\ String.prefix "Basic " s = true).
  { intros [v|] Hc; simpl in Hc.
    - apply check_header_returns in Hc as [-> Hp]. auto.
    - discriminate. }
  destruct (truthy (default PyNone (assoc "token" d))).
  { apply Hloc in H as [Ht Hp]. split; [done|]. exists d. auto. }
  destruct (assoc "data" d) as [dat|] eqn:Hd; simpl in H.
  - destruct dat as [| | | | | |m]; try discriminate.
    destruct (truthy (default PyNone (assoc "Authorization" m))).
    + apply Hloc in H as [Hn Hp]. split; [done|]. exists d. eauto 6.
    + apply Hloc in H as [Ha Hp]. split; [done|]. exists d. auto.
  - apply Hloc in H as [Ha Hp]. split; [done|]. exists d. auto.
Qed.

Lemma extract_auth_header_returns_basic_witness :
  String.prefix "Basic " Fixture.credential = true.
Proof.
  exact (proj1 (extract_auth_header_returns_basic Fixture.payload
                  Fixture.credential eq_refl)).
Defined.

(** X5: the first non-empty location is final.  A non-empty string under
    [token] decides the outcome alone, whatever [data] and [Authorization]
    hold (also a [data] that is no object, also a valid [Authorization] when
    [token] lacks the prefix); with [token] absent or empty, a non-empty
    string under [data.Authorization] decides it, whatever the top-level
    [Authorization] holds. *)
Theorem extract_auth_header_first_location_final
    (d : list (string * pyval)) (s : string) :
  s <> "" ->
  (assoc "token" d = Some (PyStr s) ->
   extract_auth_header (PyDict d) =
     if String.prefix "Basic " s then Return s else Raise missing_header) /\
  (truthy (default PyNone (assoc "token" d)) = false ->
   forall m, assoc "data" d = Some (PyDict m) ->
             assoc "Authorization" m = Some (PyStr s) ->
   extract_auth_header (PyDict d) =
     if String.prefix "Basic " s then Return s else Raise missing_header).
Proof.
  intros Hs.
  assert (Ht : truthy (PyStr s) = true).
  { simpl. destruct (String.eqb_spec s ""); [contradiction|reflexivity]. }
  assert (Hc : Spec.check_header (PyStr s) =
               if String.prefix "Basic " s then Return s else Raise missing_header).
  { unfold Spec.check_header. by rewrite Ht. }
  split.
  - intros Htok. rewrite extract_auth_header_dict. simpl.
    rewrite Htok. simpl default. by rewrite Ht.
  - intros Hfalsy m Hd Hn. rewrite extract_auth_header_dict. simpl.
    rewrite Hfalsy, Hd. simpl. rewrite Hn. simpl default. by rewrite Ht.
Qed.

Lemma extract_auth_header_first_location_final_witness :
  extract_auth_header
    (PyDict [("token", PyStr "Bearer xyz"); ("data", PyInt 7);
             ("Authorization", PyStr "Basic abc")]) =
  Raise missing_header.
Proof.
  refine (proj1 (extract_auth_header_first_location_final
                   [("token", PyStr "Bearer xyz"); ("data", PyInt 7);
                    ("Authorization", PyStr "Basic abc")]
                   "Bearer xyz" _) eq_refl).
  discriminate.
Defined.

(** X6: a payload that decodes to anything but a JSON object (a list, a
    string, a number, a boolean, [null]) makes [extract_auth_header] raise
    [AttributeError] on [.get], and the invocation answers 500. *)
Theorem handler_payload_not_object_is_500 rt config raw st body :
  json_loads rt raw = Return body ->
  (forall d, body <> PyDict d) ->
  extract_auth_header body =
    Raise (Exc AttributeError
             ("'" ++ type_name body ++ "' object has no attribute 'get'")) /\
  status_code (handler rt config (Some raw) st).1 = 500.
Proof.
  intros Hload Hnd.
  assert (He : extract_auth_header body = attribute_error body "get").
  { destruct body as [| | | | | |d]; try reflexivity. by destruct (Hnd d). }
  split; [exact He|].
  destruct (init_context config st) as [[[]|ex] st1] eqn:Hi.
  - assert (Hrun : run rt config (Some raw) st
                     (Failed Extraction (Exc AttributeError
                        ("'" ++ type_name body ++ "' object has no attribute 'get'"))) st1)
      by (eapply run_extraction_error; [exact Hi | exact Hload | exact He]).
    by rewrite (handler_of_run _ _ _ _ _ _ Hrun).
  - by rewrite (handler_config_error _ _ _ _ _ _ Hi).
Qed.

Lemma handler_payload_not_object_is_500_witness :
  let rt := Fixture.scripted (Return (PyList [PyStr "Basic abc"]))
              Fixture.upstream_ok Fixture.no_exp Fixture.t0 Fixture.t0 in
  status_code (handler rt Fixture.config (Some "[...]") initial_state).1 = 500.
Proof.
  intros rt.
  refine (proj2 (handler_payload_not_object_is_500 rt Fixture.config "[...]"
                   initial_state (PyList [PyStr "Basic abc"]) eq_refl _)).
  discriminate.
Defined.

(** X7: an invocation without [data] (the default [None]) answers 500: the
    block fails at [data.getvalue()] at the latest, and the cache is left as
    it was. *)
Theorem handler_without_data_is_500 rt config st :
  status_code (handler rt config None st).1 = 500 /\
  auth_cache (handler rt config None st).2 = auth_cache st.
Proof.
  destruct (init_context config st) as [[[]|ex] st1] eqn:Hi.
  - assert (Hrun : run rt config None st
                     (Failed PayloadDecoding
                        (Exc AttributeError
                           "'NoneType' object has no attribute 'getvalue'")) st1)
      by (eapply run_payload_error; [exact Hi | reflexivity]).
    rewrite (handler_of_run _ _ _ _ _ _ Hrun). split; [reflexivity|].
    apply init_context_globals in Hi as [Hc _]. exact Hc.
  - by rewrite (handler_config_error _ _ _ _ _ _ Hi).
Qed.

(** ** Insert then lookup *)

(** X8: an entry written with an expiry claim [e] other than 0 is served at
    every clock reading strictly before [e] and never from [e] on: a token
    whose claim is already past when it is cached is stored but never
    served. *)
Theorem cache_token_then_lookup (now t : Qc) (key : string) (tok : pyval)
    (e : Qc) (st : state) :
  e <> 0%Qc ->
  let st' := (cache_token now key tok (Some e) st).2 in
  get_cached_token t key st' =
    (Return (if bool_decide (t < e)%Qc then tok else PyNone), st').
Proof.
  intros He. unfold cache_token, modify, get_cached_token. simpl.
  rewrite lookup_insert_eq. simpl.
  rewrite (bool_decide_eq_false_2 (e = 0%Qc)) by done.
  rewrite (bool_decide_eq_true_2 (e <> 0%Qc)) by done. simpl.
  by destruct (bool_decide (t < e)%Qc).
Qed.

Lemma cache_token_then_lookup_witness :
  let st' := (cache_token Fixture.t0 "k" (PyStr "tok") (Some (Qc_of_Z 5))
                          initial_state).2 in
  get_cached_token Fixture.t0 "k" st' =
    (Return (if bool_decide (Fixture.t0 < Qc_of_Z 5)%Qc then PyStr "tok" else PyNone),
     st').
Proof.
  refine (cache_token_then_lookup Fixture.t0 Fixture.t0 "k" (PyStr "tok")
            (Qc_of_Z 5) initial_state _).
  vm_compute. discriminate.
Defined.

(** X9: an expiry claim of 0 is treated like a missing one: the globals
    afterwards are those of [cache_token] with [exp = None].  In both cases,
    with the clock not negative, the entry written at [now] is served at
    every reading up to [now + 299] and at none from [now + 301] on.  (The
    source adds 300 in doubles, so the end of the window is stated to the
    second, not to the clock's last digit.) *)
Theorem cache_token_zero_or_missing_expiry (now : Qc) (key : string)
    (tok : pyval) (e : option Qc) (st : state) :
  e = None \/ e = Some 0%Qc ->
  (0 ≤ now)%Qc ->
  let st' := (cache_token now key tok e st).2 in
  st' = (cache_token now key tok None st).2 /\
  (forall t, (t ≤ now + Qc_of_Z 299)%Qc ->
     get_cached_token t key st' = (Return tok, st')) /\
  (forall t, (now + Qc_of_Z 301 ≤ t)%Qc ->
     get_cached_token t key st' = (Return PyNone, st')).
Proof.
  intros He Hnow st'. subst st'.
  assert (Hsame : (cache_token now key tok e st).2 =
                  (cache_token now key tok None st).2).
  { destruct He as [-> | ->]; [reflexivity|].
    unfold cache_token, modify.
    by rewrite (bool_decide_eq_true_2 (0%Qc = 0%Qc)). }
  split; [exact Hsame|]. rewrite Hsame.
  assert (Hlookup : forall t,
            get_cached_token t key (cache_token now key tok None st).2 =
            (Return (if bool_decide (t < now + Qc_of_Z 300)%Qc then tok else PyNone),
             (cache_token now key tok None st).2)).
  { intros t. unfold cache_token, modify, get_cached_token. simpl.
    rewrite lookup_insert_eq. simpl.
    rewrite bool_decide_eq_true_2 by (apply Qc_shift_nonzero; [done|lia]). simpl.
    by destruct (bool_decide (t < now + Qc_of_Z 300)%Qc). }
  split; intros t Ht; rewrite Hlookup.
  - rewrite bool_decide_eq_true_2; [done|].
    apply Qcle_lt_trans with (y := (now + Qc_of_Z 299)%Qc); [done|].
    apply Qc_shift_lt. lia.
  - rewrite bool_decide_eq_false_2; [done|].
    apply Qcle_not_lt. apply Qcle_trans with (y := (now + Qc_of_Z 301)%Qc); [|done].
    apply Qclt_le_weak, Qc_shift_lt. lia.
Qed.

Lemma cache_token_zero_or_missing_expiry_witness :
  let st' := (cache_token Fixture.t0 "k" (PyStr "tok") (Some 0%Qc)
                          initial_state).2 in
  st' = (cache_token Fixture.t0 "k" (PyStr "tok") None initial_state).2 /\
  get_cached_token (Fixture.t0 + Qc_of_Z 299)%Qc "k" st' = (Return (PyStr "tok"), st').
Proof.
  intros st'.
  destruct (cache_token_zero_or_missing_expiry Fixture.t0 "k" (PyStr "tok")
              (Some 0%Qc) initial_state (or_intror eq_refl) t0_nonneg)
    as (Hsame & Hin & _).
  split; [exact Hsame|]. apply Hin. apply Qcle_refl.
Defined.

(** ** The exchange *)

(** X10: a token [fetch_new_token] returns is truthy, and it is the
    [access_token] field of a JSON object the endpoint sent with status 200
    in answer to the one POST of the credential. *)
Theorem fetch_new_token_returns_access_token rt token_url scope auth_header tok :
  fetch_new_token rt token_url scope auth_header = Return tok ->
  truthy tok = true /\
  exists r d,
    requests_post rt token_url
      [("Content-Type", "application/x-www-form-urlencoded");
       ("Authorization", auth_header)]
      [("grant_type", "client_credentials"); ("scope", scope)] 10 = Return r /\
    Py.status_code r = 200 /\
    json r = Return (PyDict d) /\
    assoc "access_token" d = Some tok.
Proof. apply fetch_new_token_inv. Qed.

Lemma fetch_new_token_returns_access_token_witness :
  truthy (PyStr "tok1") = true.
Proof.
  exact (proj1 (fetch_new_token_returns_access_token Fixture.first_call
                  "https://idcs.example/oauth2/v1/token" "urn:opc:scope"
                  Fixture.credential (PyStr "tok1") eq_refl)).
Defined.

(** X11: the exchange fails in five ways and no other.  The POST itself
    raised; the status was not 200 ([RuntimeError] with the body text, the
    body is not parsed); the body was no JSON ([.json()] raised); the JSON
    was no object ([AttributeError]); or the object had no non-empty
    [access_token] ([ValueError]). *)
Theorem fetch_new_token_failures rt token_url scope auth_header ex :
  fetch_new_token rt token_url scope auth_header = Raise ex ->
  token_request rt token_url scope auth_header = Raise ex \/
  exists r,
    token_request rt token_url scope auth_header = Return r /\
    (Py.status_code r <> 200 /\
       ex = Exc RuntimeError ("Token request failed: " ++ text r) \/
     Py.status_code r = 200 /\
       (json r = Raise ex \/
        (exists v, json r = Return v /\ (forall d, v <> PyDict d) /\
                   ex = Exc AttributeError
                          ("'" ++ type_name v ++ "' object has no attribute 'get'")) \/
        (exists d, json r = Return (PyDict d) /\
                   truthy (default PyNone (assoc "access_token" d)) = false /\
                   ex = Exc ValueError "No access token returned from OCI IAM"))).
Proof.
  rewrite fetch_new_token_request. fold (token_request rt token_url scope auth_header).
  destruct (token_request rt token_url scope auth_header) as [r|e]; simpl;
    [|intros [= ->]; auto].
  intros H. right. exists r. split; [done|].
  destruct (Z.eqb_spec (Py.status_code r) 200) as [Hst|Hst]; simpl in H.
  - right. split; [done|].
    destruct (json r) as [v|e] eqn:Hj; simpl in H; [|left; congruence].
    right. destruct v as [| | | | | |d]; simpl in H;
      try (left; eexists; split; [reflexivity|]; split;
           [discriminate | by injection H as <-]).
    right. exists d. split; [done|].
    destruct (truthy (default PyNone (assoc "access_token" d))); simpl in H;
      [discriminate|]. split; [done|congruence].
  - left. split; [done|congruence].
Qed.

Lemma fetch_new_token_failures_witness :
  exists r,
    token_request Fixture.endpoint_down "https://idcs.example/oauth2/v1/token"
                  "urn:opc:scope" Fixture.credential = Return r /\
    Py.status_code r <> 200.
Proof.
  destruct (fetch_new_token_failures Fixture.endpoint_down
              "https://idcs.example/oauth2/v1/token" "urn:opc:scope"
              Fixture.credential
              (Exc RuntimeError "Token request failed: unauthorized") eq_refl)
    as [Hpost | (r & Hr & [[Hst _] | [Hst _]])].
  - discriminate Hpost.
  - exists r. split; [exact Hr | exact Hst].
  - exfalso. injection Hr as <-. discriminate Hst.
Defined.

(** ** Cache hit and cache miss *)

Lemma handler_hit rt config data st body h app td :
  oauth_apps st !! "iam" = Some app ->
  getvalue data ≫= json_loads rt = Return body ->
  extract_auth_header body = Return h ->
  auth_cache st !! get_cache_key h = Some td ->
  exp td <> 0%Qc ->
  (time_lookup rt < exp td)%Qc ->
  truthy (token td) = true ->
  handler rt config data st =
    (build_response rt (token_response rt (SCOPE app) (token td)) 200, st).
Proof.
  intros Hg Hl He Htd Hz Hlt Ht.
  assert (Hne : oauth_apps st <> ∅).
  { intros Hempty. rewrite Hempty, lookup_empty in Hg. discriminate. }
  assert (Hrun : run rt config data st (CacheHit (SCOPE app) (token td)) st).
  { eapply run_cache_hit; eauto using init_context_skip.
    - unfold getitem. by rewrite Hg.
    - unfold get_cached_token. rewrite Htd.
      by rewrite !bool_decide_eq_true_2. }
  by rewrite (handler_of_run _ _ _ _ _ _ Hrun).
Qed.

(** X12: on a cache miss (no entry for the credential's key, or an expired
    one) with a successful exchange, the invocation answers 200 with the new
    token and writes it under the key, replacing what was there.  The
    expiry stored is the token's [exp] claim when it decodes to a value
    other than 0; when the token does not decode, has no [exp] claim or has
    the claim 0, it is the insert clock plus 300: a token that is no JWT is
    served and cached all the same. *)
Theorem handler_miss_caches_token rt config data st st1 body h app tok :
  init_context config st = (Return tt, st1) ->
  getvalue data ≫= json_loads rt = Return body ->
  extract_auth_header body = Return h ->
  oauth_apps st1 !! "iam" = Some app ->
  (forall td, auth_cache st1 !! get_cache_key h = Some td ->
              ~ (time_lookup rt < exp td)%Qc) ->
  fetch_new_token rt (TOKEN_URL app) (SCOPE app) h = Return tok ->
  exists expiry,
    handler rt config data st =
      (build_response rt (token_response rt (SCOPE app) tok) 200,
       State (<[get_cache_key h := TokenData tok expiry]> (auth_cache st1))
             (oauth_apps st1)) /\
    (forall ex, jwt_decode rt tok = Raise ex ->
       expiry = (time_insert rt + Qc_of_Z 300)%Qc) /\
    (forall c, jwt_decode rt tok = Return c ->
       claim_exp c = None \/ claim_exp c = Some 0%Qc ->
       expiry = (time_insert rt + Qc_of_Z 300)%Qc) /\
    (forall c e, jwt_decode rt tok = Return c -> claim_exp c = Some e ->
       e <> 0%Qc -> expiry = e).
Proof.
  intros Hi Hl He Hg Hmiss Hf.
  assert (Hc : get_cached_token (time_lookup rt) (get_cache_key h) st1 =
               (Return PyNone, st1)).
  { unfold get_cached_token.
    destruct (auth_cache st1 !! get_cache_key h) as [td|] eqn:Htd; [|done].
    rewrite (bool_decide_eq_false_2 (time_lookup rt < exp td)%Qc) by eauto.
    by rewrite andb_false_r. }
  destruct (cache_token_expiry (time_insert rt) (get_cache_key h) tok
              (decode_jwt_expiry rt tok) st1) as (expiry & Hs & Hcase).
  assert (Hrun : run rt config data st (CacheMiss (SCOPE app) tok)
                     (State (<[get_cache_key h := TokenData tok expiry]>
                               (auth_cache st1)) (oauth_apps st1))).
  { eapply run_cache_miss; eauto.
    unfold getitem. by rewrite Hg. }
  exists expiry. split; [by rewrite (handler_of_run _ _ _ _ _ _ Hrun)|].
  unfold decode_jwt_expiry in Hcase.
  split; [|split].
  - intros ex Hd. rewrite Hd in Hcase.
    destruct Hcase as [(x & [=] & _) | [_ ->]]. done.
  - intros c Hd Hexp. rewrite Hd in Hcase.
    destruct Hcase as [(x & Hx & Hnz & _) | [_ ->]]; [|done].
    destruct Hexp as [Hn | Hz]; congruence.
  - intros c e Hd Hexp Hnz. rewrite Hd, Hexp in Hcase.
    destruct Hcase as [(x & [= <-] & _ & ->) | [[[=] | [= ->]] _]]; done.
Qed.

Lemma handler_miss_caches_token_witness :
  exists expiry,
    handler Fixture.first_call Fixture.config (Some "{...}") initial_state =
      (build_response Fixture.first_call
         (token_response Fixture.first_call "urn:opc:scope" (PyStr "tok1")) 200,
       State (<[get_cache_key Fixture.credential := TokenData (PyStr "tok1") expiry]> ∅)
             (oauth_apps Fixture.configured)) /\
    expiry = (Fixture.t0 + Qc_of_Z 300)%Qc.
Proof.
  destruct (handler_miss_caches_token Fixture.first_call Fixture.config
              (Some "{...}") initial_state Fixture.configured Fixture.payload
              Fixture.credential
              (IamApp "https://idcs.example/oauth2/v1/token" "urn:opc:scope")
              (PyStr "tok1"))
    as (expiry & Hh & _ & Hnone & _);
    [ vm_compute; reflexivity | reflexivity | reflexivity
    | vm_compute; reflexivity
    | intros td Htd; vm_compute in Htd; discriminate Htd
    | reflexivity | ].
  exists expiry. split; [exact Hh|].
  exact (Hnone (JwtClaims None) eq_refl (or_introl eq_refl)).
Defined.

(** X13: a cache hit needs neither the network nor the token decoder: with
    a loaded configuration and an unexpired entry with a truthy token under
    the credential's key, the invocation answers 200 with the cached token
    and leaves the globals untouched, and so does every runtime that
    differs in [requests.post], [jwt.decode] or the insert clock. *)
Theorem handler_hit_without_exchange rt config data st body h app td :
  oauth_apps st !! "iam" = Some app ->
  getvalue data ≫= json_loads rt = Return body ->
  extract_auth_header body = Return h ->
  auth_cache st !! get_cache_key h = Some td ->
  exp td <> 0%Qc ->
  (time_lookup rt < exp td)%Qc ->
  truthy (token td) = true ->
  forall post decode t_insert,
    handler (with_exchange rt post decode t_insert) config data st =
      (build_response rt (token_response rt (SCOPE app) (token td)) 200, st) /\
    handler rt config data st =
      (build_response rt (token_response rt (SCOPE app) (token td)) 200, st).
Proof.
  intros Hg Hl He Htd Hz Hlt Ht post decode t_insert. split.
  - by rewrite (handler_hit (with_exchange rt post decode t_insert) config data
                  st body h app td).
  - by apply (handler_hit rt config data st body h app td).
Qed.

Lemma handler_hit_without_exchange_witness :
  let later := (Fixture.t0 + Qc_of_Z 10)%Qc in
  let rt := Fixture.scripted (Return Fixture.payload) Fixture.upstream_401
                             Fixture.no_exp later later in
  handler rt ∅ (Some "{...}") Fixture.cached =
    (build_response rt (token_response rt "urn:opc:scope" (PyStr "tok1")) 200,
     Fixture.cached).
Proof.
  intros later rt.
  refine (proj2 (handler_hit_without_exchange rt ∅ (Some "{...}") Fixture.cached
                   Fixture.payload Fixture.credential
                   (IamApp "https://idcs.example/oauth2/v1/token" "urn:opc:scope")
                   (TokenData (PyStr "tok1") (Fixture.t0 + Qc_of_Z 300)%Qc)
                   _ _ _ _ _ _ _
                   (requests_post rt) (jwt_decode rt) later));
    try (vm_compute; reflexivity).
  - vm_compute. discriminate.
Defined.

(** A 200 answer leaves a truthy token under the credential's key, and the
    answer is built from it. *)
Lemma handler_success_entry rt config data st resp st1 :
  handler rt config data st = (resp, st1) ->
  status_code resp = 200 ->
  exists body h app td,
    getvalue data ≫= json_loads rt = Return body /\
    extract_auth_header body = Return h /\
    oauth_apps st1 !! "iam" = Some app /\
    auth_cache st1 !! get_cache_key h = Some td /\
    truthy (token td) = true /\
    resp = build_response rt (token_response rt (SCOPE app) (token td)) 200.
Proof.
  intros Hh Hstatus.
  destruct (run_total rt config data st) as (p & st2 & Hrun).
  rewrite (handler_of_run _ _ _ _ _ _ Hrun) in Hh. injection Hh as <- <-.
  pose proof (run_success_inv _ _ _ _ _ _ Hrun) as Hinv.
  destruct p as [stg ex|scope tok|scope tok].
  - exfalso. unfold path_response in Hstatus.
    destruct (error_response_status rt ex) as [[Hs _]|[Hs _]];
      rewrite Hs in Hstatus; discriminate.
  - destruct Hinv as (body & h & app & Hi & Hl & He & Hg & <- & Hc & Ht).
    destruct (get_cached_token_truthy _ _ _ _ Hc Ht) as (td & Htd & <- & _).
    exists body, h, app, td. auto 10.
  - destruct Hinv as (body & h & app & st1 & c & Hi & Hl & He & Hg & <- & Hc & Ht & Hf & Hs).
    apply fetch_new_token_inv in Hf as [Htok _].
    destruct (cache_token_expiry (time_insert rt) (get_cache_key h) tok
                (decode_jwt_expiry rt tok) st1) as (expiry & Hs' & _).
    rewrite Hs' in Hs. injection Hs as <-.
    exists body, h, app, (TokenData tok expiry). simpl.
    rewrite lookup_insert_eq. auto 10.
Qed.

(** X14: after an invocation answered 200, the cache holds an entry for its
    credential such that every later invocation with the same payload, at a
    non-negative clock reading strictly before that entry's expiry, gets
    the identical response and changes nothing, whatever the token endpoint
    would answer and whatever configuration mapping is passed. *)
Theorem handler_repeat_served_from_cache rt1 config data st resp st1 :
  handler rt1 config data st = (resp, st1) ->
  status_code resp = 200 ->
  exists key td,
    auth_cache st1 !! key = Some td /\
    forall rt2 config2,
      json_loads rt2 = json_loads rt1 ->
      json_dumps rt2 = json_dumps rt1 ->
      py_repr rt2 = py_repr rt1 ->
      (0 ≤ time_lookup rt2)%Qc ->
      (time_lookup rt2 < exp td)%Qc ->
      handler rt2 config2 data st1 = (resp, st1).
Proof.
  intros Hh Hstatus.
  destruct (handler_success_entry _ _ _ _ _ _ Hh Hstatus)
    as (body & h & app & td & Hl & He & Hg & Htd & Ht & ->).
  exists (get_cache_key h), td. split; [exact Htd|].
  intros rt2 config2 Hloads Hdumps Hrepr Hnow Hlt.
  assert (Hz : exp td <> 0%Qc).
  { intros Hz. rewrite Hz in Hlt. by apply Qcle_not_lt in Hnow. }
  rewrite (handler_hit rt2 config2 data st1 body h app td); try done.
  - unfold build_response, token_response, py_str. by rewrite Hdumps, Hrepr.
  - by rewrite Hloads.
Qed.

Lemma handler_repeat_served_from_cache_witness :
  exists key td,
    auth_cache (handler Fixture.first_call Fixture.config (Some "{...}")
                        initial_state).2 !! key = Some td.
Proof.
  destruct (handler_repeat_served_from_cache Fixture.first_call Fixture.config
              (Some "{...}") initial_state
              (handler Fixture.first_call Fixture.config (Some "{...}") initial_state).1
              (handler Fixture.first_call Fixture.config (Some "{...}") initial_state).2
              (surjective_pairing _) eq_refl)
    as (key & td & Htd & _).
  exists key, td. exact Htd.
Defined.

(** ** What an invocation does to the cache *)

Lemma handler_globals rt config data st :
  exists r st1 p,
    init_context config st = (r, st1) /\
    run rt config data st p (handler rt config data st).2 /\
    (handler rt config data st).1 = path_response rt p /\
    ((handler rt config data st).2 = st1 /\
       (forall scope tok, p <> CacheMiss scope tok) \/
     exists key scope tok expiry,
       p = CacheMiss scope tok /\ truthy tok = true /\
       (expiry <> 0%Qc \/ expiry = (time_insert rt + Qc_of_Z 300)%Qc) /\
       (handler rt config data st).2 =
         State (<[key := TokenData tok expiry]> (auth_cache st1)) (oauth_apps st1)).
Proof.
  destruct (run_total rt config data st) as (p & st' & Hrun).
  rewrite (handler_of_run _ _ _ _ _ _ Hrun). simpl.
  destruct (run_globals _ _ _ _ _ _ Hrun) as (r & st1 & Hi & Hst).
  exists r, st1, p. auto.
Qed.

(** X15: an invocation never removes or alters more than one cache entry:
    the cache afterwards is the cache before, or the cache before with one
    key written; every key present before is present after. *)
Theorem handler_cache_only_grows rt config data st :
  (auth_cache (handler rt config data st).2 = auth_cache st \/
   exists key td,
     auth_cache (handler rt config data st).2 = <[key := td]> (auth_cache st)) /\
  dom (auth_cache st) ⊆ dom (auth_cache (handler rt config data st).2).
Proof.
  destruct (handler_globals rt config data st)
    as (r & st1 & p & Hi & _ & _ & Hst).
  apply init_context_globals in Hi as [Hc _].
  destruct Hst as [[-> _] | (key & scope & tok & expiry & _ & _ & _ & ->)];
    simpl; rewrite Hc.
  - split; [by left | done].
  - split; [right; eauto|]. rewrite dom_insert_L. set_solver.
Qed.

(** X16: an invocation that does not answer 200 leaves the cache exactly as
    it was: a failed exchange, a rejected payload or a configuration error
    never writes or invalidates an entry. *)
Theorem handler_error_leaves_cache rt config data st :
  status_code (handler rt config data st).1 <> 200 ->
  auth_cache (handler rt config data st).2 = auth_cache st.
Proof.
  intros Hstatus.
  destruct (handler_globals rt config data st)
    as (r & st1 & p & Hi & _ & Hresp & Hst).
  apply init_context_globals in Hi as [Hc _].
  destruct Hst as [[-> _] | (key & scope & tok & expiry & -> & _)]; [done|].
  rewrite Hresp in Hstatus. by destruct Hstatus.
Qed.

Lemma handler_error_leaves_cache_witness :
  let later := (Fixture.t0 + Qc_of_Z 1000)%Qc in
  let rt := Fixture.scripted (Return Fixture.payload) Fixture.upstream_401
                             Fixture.no_exp later later in
  auth_cache (handler rt Fixture.config (Some "{...}") Fixture.cached).2 =
  auth_cache Fixture.cached.
Proof.
  intros later rt.
  refine (handler_error_leaves_cache rt Fixture.config (Some "{...}")
            Fixture.cached _).
  vm_compute. discriminate.
Defined.

(** ** Invariants of the globals over the life of a process *)

Lemma handler_preserves_cache_ok rt config data st :
  cache_ok st -> (0 ≤ time_insert rt)%Qc ->
  cache_ok (handler rt config data st).2.
Proof.
  intros Hok Hclock. unfold cache_ok in *.
  destruct (handler_globals rt config data st)
    as (r & st1 & p & Hi & _ & _ & Hst).
  apply init_context_globals in Hi as [Hc _].
  destruct Hst as [[-> _] | (key & scope & tok & expiry & _ & Htok & Hexp & ->)];
    simpl; rewrite Hc; [done|].
  apply map_Forall_insert_2; [|done]. split; [done|]. simpl.
  destruct Hexp as [Hnz | ->]; [done|].
  apply Qc_shift_nonzero; [done|lia].
Qed.

Lemma serve_preserves_cache_ok (calls : list invocation) (st : state) :
  cache_ok st ->
  Forall (fun c => (0 ≤ time_insert (inv_runtime c))%Qc) calls ->
  cache_ok (serve calls st).
Proof.
  revert st. induction calls as [|c calls IH]; intros st Hok Hclocks; [done|].
  inversion Hclocks as [|? ? Hc Hrest]; subst. simpl.
  apply IH; [|done]. by apply handler_preserves_cache_ok.
Qed.

(** X17: in a process that starts with empty globals and whose clock is
    never negative, after any sequence of invocations every cache entry
    holds a truthy token and an expiry other than 0: the cache never holds
    an entry that [get_cached_token] or [handler] would reject for a reason
    other than the time. *)
Theorem serve_keeps_cache_ok (calls : list invocation) :
  Forall (fun c => (0 ≤ time_insert (inv_runtime c))%Qc) calls ->
  cache_ok (serve calls initial_state).
Proof.
  apply serve_preserves_cache_ok. unfold cache_ok. simpl.
  apply map_Forall_empty.
Qed.

Lemma serve_keeps_cache_ok_witness :
  cache_ok (serve [Invocation Fixture.first_call Fixture.config (Some "{...}")]
                  initial_state).
Proof.
  apply serve_keeps_cache_ok.
  constructor; [exact t0_nonneg | constructor].
Defined.

Lemma handler_preserves_config_ok rt config data st :
  config_ok st -> config_ok (handler rt config data st).2.
Proof.
  intros Hok.
  destruct (handler_globals rt config data st)
    as (r & st1 & p & Hi & _ & _ & Hst).
  assert (Hok1 : config_ok st1).
  { apply init_context_globals in Hi as (_ & [-> | (_ & _ & u & s & _ & _ & Ho)]);
      [done|]. right. eauto. }
  by destruct Hst as [[-> _] | (key & scope & tok & expiry & _ & _ & _ & ->)].
Qed.

Lemma serve_preserves_config_ok (calls : list invocation) (st : state) :
  config_ok st -> config_ok (serve calls st).
Proof.
  revert st. induction calls as [|c calls IH]; intros st Hok; [done|].
  simpl. apply IH. by apply handler_preserves_config_ok.
Qed.

(** X18: in a process that starts with empty globals, [oauth_apps] is
    always empty or the single entry ['iam'], so after any sequence of
    invocations [handler] never fails at [oauth_apps['iam']]: once
    [init_context] has returned, the scope and the token URL are there. *)
Theorem serve_never_fails_at_config_lookup
    (calls : list invocation) rt config data stg ex st' :
  run rt config data (serve calls initial_state) (Failed stg ex) st' ->
  stg <> ConfigLookup /\ config_ok (serve calls initial_state).
Proof.
  intros Hrun.
  assert (Hok : config_ok (serve calls initial_state))
    by (apply serve_preserves_config_ok; by left).
  split; [|exact Hok]. intros ->.
  inversion Hrun as [| | |ex' st1 body h Hi Hl He Hg| | |]; subst.
  pose proof (init_context_loads _ _ _ Hi) as Hne.
  pose proof Hi as Hi'.
  apply init_context_globals in Hi' as (_ & [-> | (_ & _ & u & s & _ & _ & Ho)]).
  - destruct Hok as [Hempty | [app Happ]]; [done|].
    unfold getitem in Hg. rewrite Happ, lookup_singleton_eq in Hg. discriminate.
  - unfold getitem in Hg. rewrite Ho, lookup_singleton_eq in Hg. discriminate.
Qed.

Lemma serve_never_fails_at_config_lookup_witness :
  Extraction <> ConfigLookup.
Proof.
  refine (proj1 (serve_never_fails_at_config_lookup []
                   (Fixture.scripted (Return (PyDict [])) Fixture.upstream_ok
                                     Fixture.no_exp Fixture.t0 Fixture.t0)
                   Fixture.config (Some "{}") Extraction missing_header
                   Fixture.configured _)).
  eapply run_extraction_error; vm_compute; reflexivity.
Defined.

(** X19: on a cache whose entries hold truthy tokens and expiries other
    than 0, at any clock reading, [get_cached_token] returns a truthy value
    exactly when the key has an entry that has not expired, and [None]
    otherwise: the hit-or-miss decision of [handler] is the validity of the
    entry and nothing else. *)
Theorem get_cached_token_hit_iff_valid (now : Qc) (key : string) (st : state) :
  cache_ok st ->
  exists v,
    get_cached_token now key st = (Return v, st) /\
    (truthy v = true <->
     exists td, auth_cache st !! key = Some td /\ (now < exp td)%Qc) /\
    (truthy v = false -> v = PyNone).
Proof.
  intros Hok. unfold get_cached_token.
  destruct (auth_cache st !! key) as [td|] eqn:Htd.
  - destruct (map_Forall_lookup_1 _ _ _ _ Hok Htd) as [Htok Hnz].
    rewrite (bool_decide_eq_true_2 (exp td <> 0%Qc)) by done. simpl.
    destruct (bool_decide_reflect (now < exp td)%Qc) as [Hlt|Hge].
    + exists (token td). split; [done|]. split; [|congruence].
      split; [eauto|done].
    + exists PyNone. split; [done|]. split; [|done].
      split; [discriminate|]. intros (td' & [= <-] & Hlt). contradiction.
  - exists PyNone. split; [done|]. split; [|done].
    split; [discriminate|]. intros (td' & [=] & _).
Qed.

Lemma get_cached_token_hit_iff_valid_witness :
  exists v,
    get_cached_token Fixture.t0
      "01c185531ab9c6e36dd1793b5bac688be320519636714fa7859e351a931a03a9"
      Fixture.cached = (Return v, Fixture.cached).
Proof.
  assert (Hok : cache_ok Fixture.cached).
  { unfold cache_ok. simpl. apply map_Forall_singleton.
    split; [reflexivity|]. vm_compute. discriminate. }
  destruct (get_cached_token_hit_iff_valid Fixture.t0
              "01c185531ab9c6e36dd1793b5bac688be320519636714fa7859e351a931a03a9"
              Fixture.cached Hok) as (v & Hv & _).
  exists v. exact Hv.
Defined.

(** ** The response envelope *)

Lemma prefix_append (p s : string) : String.prefix p (p ++ s) = true.
Proof.
  induction p as [|c p IH]; simpl; [by destruct s|].
  by destruct (ascii_dec c c).
Qed.

(** X20: every response carries the single header
    [Content-Type: application/json]; its status is 200 with a body that is
    the dump of the three-field success object, or 400 or 500 with a body
    that is the dump of the one-field object [{"error": message}]. *)
Theorem handler_response_envelope rt config data st :
  headers (handler rt config data st).1 = [("Content-Type", "application/json")] /\
  (status_code (handler rt config data st).1 = 200 /\
     (exists scope bearer,
        response_data (handler rt config data st).1 =
          json_dumps rt
            (PyDict [("active", PyBool true); ("scope", PyStr scope);
                     ("context", PyDict [("token_response", PyStr bearer)])]) /\
        String.prefix "Bearer " bearer = true)
   \/
   (status_code (handler rt config data st).1 = 400 \/
    status_code (handler rt config data st).1 = 500) /\
     exists msg,
       response_data (handler rt config data st).1 =
         json_dumps rt (PyDict [("error", PyStr msg)])).
Proof.
  destruct (run_total rt config data st) as (p & st' & Hrun).
  rewrite (handler_of_run _ _ _ _ _ _ Hrun). simpl.
  destruct p as [stg ex|scope tok|scope tok].
  - unfold path_response, error_response, error_body, build_response.
    destruct (is_ValueError ex); simpl; (split; [done|]); right; eauto.
  - split; [done|]. left. split; [done|].
    eexists _, _. split; [reflexivity | apply prefix_append].
  - split; [done|]. left. split; [done|].
    eexists _, _. split; [reflexivity | apply prefix_append].
Qed.
